(** * FeatBench: the container and image cache manager

    A shallow embedding of [docker_agent/container/cache_manager.py]
    (class [CacheManager]) together with a model of the container daemon it
    talks to, and the properties of the environment cache manager
    specification checked against it.

    Layout:
    - [PyStr]     the two [str] methods the constructor uses;
    - [Docker]    exceptions, the daemon state, the state-and-exception monad
                  and the daemon operations;
    - [Cache]     the methods of [CacheManager], one definition per method;
    - [Sample]    concrete managers and worlds;
    - [PullImages], [GitHub], [PullRequests]  the image pull script, the
                  search for candidate repositories, pull request links;
    - the lemmas: symbolic execution of computations, then one theorem per
      property. *)

From Stdlib Require Import Ascii String.
From stdpp Require Import base tactics option list gmap strings pretty sorting.

Set Default Proof Using "Type".

(* ===================================================================== *)
(** ** Python string methods *)
(* ===================================================================== *)

Module PyStr.

(** [old in s] at position 0. *)
Definition startswith (s old : string) : bool := String.prefix old s.

(** [s.replace(old, new)] for a non-empty [old]: occurrences are found
    left to right and do not overlap. [skip] counts the characters of a
    match that are still to be dropped. *)
Fixpoint replace_from (old new : string) (skip : nat) (s : string) : string :=
  match s with
  | EmptyString => EmptyString
  | String c s' =>
      match skip with
      | S k => replace_from old new k s'
      | O =>
          if startswith s old
          then new +:+ replace_from old new (String.length old - 1) s'
          else String c (replace_from old new 0 s')
      end
  end.

(** [s.replace("", new)]: [new] goes before every character and at the end. *)
Fixpoint replace_empty (new : string) (s : string) : string :=
  match s with
  | EmptyString => new
  | String c s' => new +:+ String c (replace_empty new s')
  end.

Definition replace (s old new : string) : string :=
  match old with
  | EmptyString => replace_empty new s
  | _ => replace_from old new 0 s
  end.

(** Strings are sequences of bytes (UTF-8). [replace] and concatenation act
    on bytes as they act on characters. [lower] is [str.lower()] on ASCII
    text only: outside it [str.lower()] follows Unicode and can even change
    the length, so what is stated of [lower] is stated for ASCII strings. *)
Definition is_ascii_char (c : ascii) : bool := (nat_of_ascii c <? 128)%nat.

Fixpoint is_ascii (s : string) : bool :=
  match s with
  | EmptyString => true
  | String c s' => is_ascii_char c && is_ascii s'
  end.

(** [c.lower()] for an ASCII character; other bytes are left as they are. *)
Definition lower_char (c : ascii) : ascii :=
  let n := nat_of_ascii c in
  if (65 <=? n)%nat && (n <=? 90)%nat then ascii_of_nat (n + 32) else c.

Fixpoint lower (s : string) : string :=
  match s with
  | EmptyString => EmptyString
  | String c s' => String (lower_char c) (lower s')
  end.

(** [s[:n]] *)
Definition take (n : nat) (s : string) : string := String.substring 0 n s.

(** The character-wise reading of the two normalisations, in the words of
    the specification: "replaces path separators", "lower-cases it". *)
Fixpoint map_chars (f : ascii → ascii) (s : string) : string :=
  match s with
  | EmptyString => EmptyString
  | String c s' => String (f c) (map_chars f s')
  end.

Definition slash_to_underscore (c : ascii) : ascii :=
  if Ascii.eqb c "/" then "_"%char else c.

(** Lower-casing read off the alphabet: the capital at a position becomes
    the small letter at that position, anything else stays. *)
Fixpoint translate (from to : string) (c : ascii) : ascii :=
  match from, to with
  | String a from', String b to' =>
      if Ascii.eqb c a then b else translate from' to' c
  | _, _ => c
  end.

Definition small_letter (c : ascii) : ascii :=
  translate "ABCDEFGHIJKLMNOPQRSTUVWXYZ" "abcdefghijklmnopqrstuvwxyz" c.

(** [c in s] for a character [c]. *)
Fixpoint mem_char (c : ascii) (s : string) : bool :=
  match s with
  | EmptyString => false
  | String c' s' => Ascii.eqb c c' || mem_char c s'
  end.

(** [sub in s] *)
Fixpoint contains (sub s : string) : bool :=
  startswith s sub
  || match s with
     | EmptyString => false
     | String _ s' => contains sub s'
     end.

End PyStr.

(* ===================================================================== *)
(** ** The constructor: key derivation *)
(* ===================================================================== *)

(** The attributes of a [CacheManager] that the methods read. [client],
    [logger] and [image_builder] are the daemon, the log and the build
    trigger of the world below. *)
Record CacheManager := {
  base_path : string;
  repo : string;
  repo_id : string;
  repo_lower : string;
  timeout : nat
}.

(** [CacheManager.__init__(repo, repo_id, timeout=300)]; [base] stands for
    [Path(__file__).parent.parent]. *)
Definition init (base : string) (repo_name : string) (task : string) (tmo : nat)
  : CacheManager :=
  let r := PyStr.replace repo_name "/" "_" in
  {| base_path := base;
     repo := r;
     repo_id := task;
     repo_lower := PyStr.lower r;
     timeout := tmo |}.

(* ===================================================================== *)
(** ** The container daemon, seen through the docker client *)
(* ===================================================================== *)

Module Docker.

(** The exceptions a call to the daemon or to the build trigger can end in,
    and the manager's own [CacheError]. All derive from [Exception]: in the
    client library [ImageNotFound] derives from [NotFound], which derives
    from [APIError]; connection failures and timeouts are [Exception]s of
    the transport layer. What is raised into the process from outside a call
    ([KeyboardInterrupt], [SystemExit]) derives from [BaseException] only,
    passes every [except Exception] and is not an outcome of a call: it is
    outside this model, and the statements below speak of the outcomes of
    calls. *)
Inductive exn_class :=
| NotFound | ImageNotFound | APIError
| ConnectionError | ReadTimeout
| BuildError | CacheError.

(** An exception object: its class and [str(e)]. *)
Record exn := Exn { exn_cls : exn_class; exn_str : string }.

(** [isinstance(e, docker.errors.NotFound)] *)
Definition isinstance_NotFound (e : exn) : bool :=
  match exn_cls e with NotFound | ImageNotFound => true | _ => false end.

(** [isinstance(e, docker.errors.ImageNotFound)] *)
Definition isinstance_ImageNotFound (e : exn) : bool :=
  match exn_cls e with ImageNotFound => true | _ => false end.

(** Daemon unreachable, or no answer in time. *)
Definition is_transport (e : exn) : bool :=
  match exn_cls e with ConnectionError | ReadTimeout => true | _ => false end.

(** The keyword arguments of [containers.run]. *)
Record device_request := {
  dr_count : Z;
  dr_capabilities : list (list string)
}.

Record volume := { vol_bind : string; vol_mode : string }.

Record container_config := {
  cfg_name : string;
  cfg_command : string;
  cfg_detach : bool;
  cfg_tty : bool;
  cfg_runtime : string;
  cfg_network_mode : string;
  cfg_device_requests : list device_request;
  cfg_environment : list (string * string);
  cfg_volumes : list (string * volume);
  cfg_user : option string
}.

(** [config['user'] = u] *)
Definition set_user (u : string) (c : container_config) : container_config :=
  {| cfg_name := cfg_name c; cfg_command := cfg_command c;
     cfg_detach := cfg_detach c; cfg_tty := cfg_tty c;
     cfg_runtime := cfg_runtime c; cfg_network_mode := cfg_network_mode c;
     cfg_device_requests := cfg_device_requests c;
     cfg_environment := cfg_environment c; cfg_volumes := cfg_volumes c;
     cfg_user := Some u |}.

(** Handles. A container handle refers to the daemon's container of that
    name (names are unique in the daemon) and keeps the attributes fetched
    when it was made: [handle_status] is what [container.status] reads,
    whatever has happened to the container since. The manager never
    reloads a handle. *)
Record Container := Handle { handle_name : string; handle_status : string }.
Record Image := ImageOf { image_id : string }.

(** The requests to the daemon, as points where the daemon can refuse to
    answer. A call of the client library can be several requests:
    [containers.run] is a create request ([OpContainersRun]), a pull when
    the daemon lacks the image ([OpRunPull]), the fetch of the new
    container's attributes ([OpRunInspect]) and a start ([OpRunStart]);
    [container.commit] is the commit request ([OpCommit]) and the fetch of
    the new image ([OpCommitInspect]). *)
Inductive op :=
| OpContainersGet | OpStart | OpRemove | OpImagesGet
| OpContainersRun | OpRunPull | OpRunInspect | OpRunStart
| OpCommit | OpCommitInspect.

(** The calls the manager makes to the client library and to the build
    trigger, with the arguments, in the order made. *)
Inductive call :=
| ContainersGet (name : string)
| Start (name : string)
| Remove (name : string) (force : bool)
| ImagesGet (name : string)
| ContainersRun (image : string) (config : container_config)
| Commit (name : string) (repository tag : string)
| BuildImage (repo_name : string).

Inductive level := INFO | WARNING | ERROR.

(** The world a manager runs in.
    - [containers]: the daemon's containers, name to status string;
    - [images]: the daemon's images, ["repository:tag"] to image id;
    - [image_ids], [next_image]: the ids the daemon gives to new images;
    - [faults]: for each request, the exception it ends in (unreachable,
      timeout, server error, nothing to pull), if any;
    - [build_result]: the build trigger, see [build_image];
    - [docker_environment], [os_name], [getuid], [getgid]: the constant
      [DOCKER_ENVIRONMENT] of the configuration module and the host
      process, read by [common_container_config];
    - [calls], [logs]: what has been asked and what has been logged. *)
Record World := {
  containers : gmap string string;
  images : gmap string string;
  image_ids : nat → string;
  next_image : nat;
  faults : op → option exn;
  build_result : string → exn + string;
  docker_environment : list (string * string);
  os_name : string;
  getuid : nat;
  getgid : nat;
  calls : list call;
  logs : list (level * string)
}.

Definition with_containers (cs : gmap string string) (w : World) : World :=
  {| containers := cs; images := images w; image_ids := image_ids w;
     next_image := next_image w; faults := faults w;
     build_result := build_result w;
     docker_environment := docker_environment w; os_name := os_name w;
     getuid := getuid w; getgid := getgid w;
     calls := calls w; logs := logs w |}.

(** A new image under [key], with the next id of the daemon. *)
Definition with_new_image (key : string) (w : World) : World :=
  {| containers := containers w;
     images := <[key := image_ids w (next_image w)]> (images w);
     image_ids := image_ids w;
     next_image := S (next_image w); faults := faults w;
     build_result := build_result w;
     docker_environment := docker_environment w; os_name := os_name w;
     getuid := getuid w; getgid := getgid w;
     calls := calls w; logs := logs w |}.

Definition with_call (c : call) (w : World) : World :=
  {| containers := containers w; images := images w;
     image_ids := image_ids w;
     next_image := next_image w; faults := faults w;
     build_result := build_result w;
     docker_environment := docker_environment w; os_name := os_name w;
     getuid := getuid w; getgid := getgid w;
     calls := calls w ++ [c]; logs := logs w |}.

Definition with_log (l : level) (msg : string) (w : World) : World :=
  {| containers := containers w; images := images w;
     image_ids := image_ids w;
     next_image := next_image w; faults := faults w;
     build_result := build_result w;
     docker_environment := docker_environment w; os_name := os_name w;
     getuid := getuid w; getgid := getgid w;
     calls := calls w; logs := logs w ++ [(l, msg)] |}.

(** *** Computations: state passing with exceptions *)

Definition M (A : Type) : Type := World → (exn + A) * World.

#[global] Instance M_ret : MRet M := λ A a w, (inr a, w).

#[global] Instance M_bind : MBind M := λ A B f m w,
  match m w with
  | (inr a, w') => f a w'
  | (inl e, w') => (inl e, w')
  end.

Definition raise {A} (e : exn) : M A := λ w, (inl e, w).

(** [try: body except Exception as e: handler e] *)
Definition try_except {A} (body : M A) (handler : exn → M A) : M A := λ w,
  match body w with
  | (inl e, w') => handler e w'
  | (inr a, w') => (inr a, w')
  end.

Definition gets {A} (f : World → A) : M A := λ w, (inr (f w), w).
Definition modify (f : World → World) : M unit := λ w, (inr tt, f w).

(** [self.logger.info(msg)] and the like. *)
Definition log (l : level) (msg : string) : M unit := modify (with_log l msg).

(** A request fails if the daemon does not answer it. *)
Definition fault_point (o : op) : M unit :=
  f ← gets faults;
  match f o with
  | Some e => raise e
  | None => mret tt
  end.

(** A call of the manager that is one request: it is recorded, then the
    request is made. *)
Definition request (o : op) (c : call) : M unit :=
  modify (with_call c);;
  fault_point o.

(** *** Daemon operations *)

(** [client.containers.get(name)] *)
Definition containers_get (name : string) : M Container :=
  request OpContainersGet (ContainersGet name);;
  cs ← gets containers;
  match cs !! name with
  | Some s => mret (Handle name s)
  | None => raise (Exn NotFound ("No such container: " +:+ name))
  end.

(** [container.status]: the attribute kept by the handle. *)
Definition status (c : Container) : M string := mret (handle_status c).

(** [container.start()]: the container runs; the handle is not updated. *)
Definition start (c : Container) : M unit :=
  request OpStart (Start (handle_name c));;
  cs ← gets containers;
  match cs !! handle_name c with
  | Some _ => modify (with_containers (<[handle_name c := "running"]> cs))
  | None => raise (Exn NotFound ("No such container: " +:+ handle_name c))
  end.

(** [container.remove(force=force)]: a running container is removed only
    when forced. *)
Definition remove (c : Container) (force : bool) : M unit :=
  request OpRemove (Remove (handle_name c) force);;
  cs ← gets containers;
  match cs !! handle_name c with
  | Some s =>
      if force || negb (String.eqb s "running")
      then modify (with_containers (delete (handle_name c) cs))
      else raise (Exn APIError ("cannot remove a running container: " +:+ handle_name c))
  | None => raise (Exn NotFound ("No such container: " +:+ handle_name c))
  end.

(** [client.images.get(name)] *)
Definition images_get (name : string) : M Image :=
  request OpImagesGet (ImagesGet name);;
  ims ← gets images;
  match ims !! name with
  | Some i => mret (ImageOf i)
  | None => raise (Exn ImageNotFound ("No such image: " +:+ name))
  end.

(** [client.images.pull(image)], as [containers.run] uses it. *)
Definition images_pull (image : string) : M unit :=
  fault_point OpRunPull;;
  modify (with_new_image image).

(** [client.containers.create(image, **config)]: the daemon refuses an
    image it does not have and a name that is taken; the handle returned is
    fetched once the container is made, in status [created]. *)
Definition containers_create (image : string) (config : container_config)
  : M Container :=
  fault_point OpContainersRun;;
  ims ← gets images;
  cs ← gets containers;
  match ims !! image with
  | None => raise (Exn ImageNotFound ("No such image: " +:+ image))
  | Some _ =>
      match cs !! cfg_name config with
      | Some _ =>
          raise (Exn APIError ("Conflict. The container name is already in use: "
                               +:+ cfg_name config))
      | None =>
          modify (with_containers (<[cfg_name config := "created"]> cs));;
          fault_point OpRunInspect;;
          mret (Handle (cfg_name config) "created")
      end
  end.

(** [client.containers.run(image=image, **config)] with [detach=True]:
    create, after a pull if the image is not found; then start. The handle
    returned is the one [create] fetched. *)
Definition containers_run (image : string) (config : container_config) : M Container :=
  modify (with_call (ContainersRun image config));;
  container ← try_except (containers_create image config)
                (λ e, if isinstance_ImageNotFound e
                      then images_pull image;; containers_create image config
                      else raise e);
  fault_point OpRunStart;;
  cs ← gets containers;
  match cs !! handle_name container with
  | Some _ =>
      modify (with_containers (<[handle_name container := "running"]> cs));;
      mret container
  | None => raise (Exn NotFound ("No such container: " +:+ handle_name container))
  end.

(** [container.commit(repository=repository, tag=tag)]: the commit request
    stores the image under ["repository:tag"], moving the tag if it is
    taken; then the image is fetched by its id. *)
Definition commit (c : Container) (repository tag : string) : M Image :=
  request OpCommit (Commit (handle_name c) repository tag);;
  cs ← gets containers;
  match cs !! handle_name c with
  | None => raise (Exn NotFound ("No such container: " +:+ handle_name c))
  | Some _ =>
      i ← gets (λ w, image_ids w (next_image w));
      modify (with_new_image (repository +:+ ":" +:+ tag));;
      fault_point OpCommitInspect;;
      mret (ImageOf i)
  end.

(** Modelled from the spec: [DockerImageBuilder.build_image], the build
    trigger, whose module is not among the sources. "[build(repositoryIdentity)
    -> imageReference]; contract is: eventually produces a valid image
    reference or raises a build failure". A valid reference is one the
    daemon has an image for afterwards. *)
Definition build_image (repo_name : string) : M string :=
  modify (with_call (BuildImage repo_name));;
  b ← gets build_result;
  match b repo_name with
  | inl e => raise e
  | inr ref => modify (with_new_image ref);; mret ref
  end.

(** The daemon's own view of the container [c] refers to: it runs. *)
Definition runs_in_daemon (w : World) (c : Container) : Prop :=
  containers w !! handle_name c = Some "running".

End Docker.

(* ===================================================================== *)
(** ** The methods of [CacheManager] *)
(* ===================================================================== *)

Module Cache.
Import Docker.

(** [common_container_config] (a property: evaluated at every use). *)
Definition common_container_config (self : CacheManager) : M container_config :=
  env ← gets docker_environment;
  let config :=
    {| cfg_name := repo self;
       cfg_command := "/bin/bash";
       cfg_detach := true;
       cfg_tty := true;
       cfg_runtime := "nvidia";
       cfg_network_mode := "host";
       cfg_device_requests :=
         [ {| dr_count := (-1)%Z; dr_capabilities := [["gpu"]] |} ];
       cfg_environment := env;
       cfg_volumes :=
         [ (base_path self +:+ "/swap",
            {| vol_bind := "/workdir/swap"; vol_mode := "rw" |}) ];
       cfg_user := None |} in
  os ← gets os_name;
  if String.eqb os "posix" then
    uid ← gets getuid;
    gid ← gets getgid;
    log INFO ("Running on POSIX system, setting container user to UID="
              +:+ pretty uid +:+ ", GID=" +:+ pretty gid);;
    mret (set_user (pretty uid +:+ ":" +:+ pretty gid) config)
  else mret config.

(** [check_cached_container]: [None] is Python's [None]. *)
Definition check_cached_container (self : CacheManager) : M (option Container) :=
  try_except
    (container ← containers_get (repo self);
     st ← status container;
     if String.eqb st "running" then
       log INFO ("Found running cached container: " +:+ repo self);;
       mret (Some container)
     else if String.eqb st "exited" then
       log INFO ("Found stopped cached container: " +:+ repo self +:+ ", restarting...");;
       start container;;
       mret (Some container)
     else
       log WARNING ("Container " +:+ repo self +:+ " status abnormal: " +:+ st
                    +:+ ", will recreate");;
       remove container true;;
       mret None)
    (λ e,
       if isinstance_NotFound e then
         log INFO ("Cached container not found: " +:+ repo self);;
         mret None
       else
         log ERROR ("Error checking cached container: " +:+ exn_str e);;
         mret None).

(** [save_container_as_image]: returns the id of the image. *)
Definition save_container_as_image (self : CacheManager) (container : Container)
  : M string :=
  let image_name := "featbench_" +:+ repo_lower self in
  try_except
    (log INFO ("Saving container as image: " +:+ image_name);;
     image ← commit container image_name (repo_id self);
     log INFO ("Successfully saved image: " +:+ image_name +:+ ":latest (ID: "
               +:+ PyStr.take 12 (image_id image) +:+ ")");;
     mret (image_id image))
    (λ e,
       log ERROR ("Failed to save container image: " +:+ exn_str e);;
       raise (Exn CacheError ("Failed to save container image: " +:+ exn_str e))).

(** [check_cached_image] *)
Definition check_cached_image (self : CacheManager) : M bool :=
  let image_name := "featbench_" +:+ repo_lower self +:+ ":" +:+ repo_id self in
  try_except
    (images_get image_name;;
     log INFO ("Found cached image: " +:+ image_name);;
     mret true)
    (λ e,
       if isinstance_ImageNotFound e then
         log INFO ("Cached image not found: " +:+ image_name);;
         mret false
       else
         log ERROR ("Error checking cached image: " +:+ exn_str e);;
         mret false).

(** [create_container_from_cached_image] *)
Definition create_container_from_cached_image (self : CacheManager) : M Container :=
  let image_name := "featbench_" +:+ repo_lower self +:+ ":" +:+ repo_id self in
  log INFO ("Creating container from cached image: " +:+ image_name);;
  config ← common_container_config self;
  container ← containers_run image_name config;
  log INFO ("Successfully created container from cached image: " +:+ repo self);;
  mret container.

(** [create_new_container] *)
Definition create_new_container (self : CacheManager) : M Container :=
  log INFO ("Creating new container: " +:+ repo self);;
  image_name ← build_image (repo self);
  config ← common_container_config self;
  container ← containers_run image_name config;
  log INFO ("Container " +:+ repo self +:+ " created successfully");;
  mret container.

(** Modelled from the spec: the acquire protocol. The caller that chains the
    four methods above is not among the sources; this is section 4.3,
    "first matching branch wins": a usable container, else a cached image,
    else a build. *)
Definition acquireEnvironment (self : CacheManager) : M Container :=
  cached ← check_cached_container self;
  match cached with
  | Some container => mret container
  | None =>
      has_image ← check_cached_image self;
      if has_image : bool then create_container_from_cached_image self
      else create_new_container self
  end.

(** What a call of [containers_run] leaves, whatever its requests end in:
    one call recorded, nothing logged, no other container touched; and a
    handle is returned only for a name that was free, fetched in status
    [created], of a container that runs. *)
Definition run_post (image : string) (config : container_config) (w : World)
    (r : exn + Container) (w' : World) : Prop :=
  calls w' = calls w ++ [ContainersRun image config] ∧
  logs w' = logs w ∧
  faults w' = faults w ∧
  (∀ name, name ≠ cfg_name config → containers w' !! name = containers w !! name) ∧
  match r with
  | inr c =>
      c = Handle (cfg_name config) "created" ∧
      containers w !! cfg_name config = None ∧
      containers w' = <[cfg_name config := "running"]> (containers w)
  | inl _ => True
  end.


(** The image key of a manager: the f-string of [check_cached_image] and
    [create_container_from_cached_image]. *)
Definition image_key (self : CacheManager) : string :=
  "featbench_" +:+ repo_lower self +:+ ":" +:+ repo_id self.

(** What [acquireEnvironment] does once [check_cached_container] has
    returned [None]. *)
Definition after_miss (self : CacheManager) : M Container :=
  check_cached_image self ≫= λ has_image : bool,
    if has_image then create_container_from_cached_image self
    else create_new_container self.

(** The calls issued between two worlds. *)
Definition issued (w w' : World) : list call := drop (length (calls w)) (calls w').

Definition is_start (c : call) : bool :=
  match c with Start _ => true | _ => false end.
Definition is_build (c : call) : bool :=
  match c with BuildImage _ => true | _ => false end.
Definition is_commit (c : call) : bool :=
  match c with Commit _ _ _ => true | _ => false end.
Definition is_images_get (c : call) : bool :=
  match c with ImagesGet _ => true | _ => false end.

Fixpoint count (p : call → bool) (l : list call) : nat :=
  match l with
  | [] => 0
  | c :: l' => (if p c then 1 else 0) + count p l'
  end.

End Cache.

(* ===================================================================== *)
(** ** Sample worlds *)
(* ===================================================================== *)

Module Sample.
Import Docker Cache.

(** An empty daemon that answers every call; the build trigger names its
    image after the repository. *)
Definition quiet : World :=
  {| containers := ∅; images := ∅;
     image_ids := λ n, "sha256:" +:+ pretty n; next_image := 0;
     faults := λ _, None;
     build_result := λ r, inr ("img://build/" +:+ r);
     docker_environment := [("PYTHONUNBUFFERED", "1")];
     os_name := "posix"; getuid := 1000; getgid := 1000;
     calls := []; logs := [] |}.

Definition with_faults (f : op → option exn) (w : World) : World :=
  {| containers := containers w; images := images w;
     image_ids := image_ids w; next_image := next_image w;
     faults := f;
     build_result := build_result w;
     docker_environment := docker_environment w; os_name := os_name w;
     getuid := getuid w; getgid := getgid w;
     calls := calls w; logs := logs w |}.

Definition with_images (ims : gmap string string) (w : World) : World :=
  {| containers := containers w; images := ims;
     image_ids := image_ids w; next_image := next_image w;
     faults := faults w;
     build_result := build_result w;
     docker_environment := docker_environment w; os_name := os_name w;
     getuid := getuid w; getgid := getgid w;
     calls := calls w; logs := logs w |}.

Definition octocat : CacheManager := init "/opt/agent" "octocat/demo" "42" 300.

Definition unreachable : exn := Exn ConnectionError "Connection refused".

Definition only (o : op) (e : exn) : op → option exn :=
  λ o', match o, o' with
        | OpContainersGet, OpContainersGet | OpStart, OpStart
        | OpRemove, OpRemove | OpImagesGet, OpImagesGet
        | OpContainersRun, OpContainersRun | OpRunPull, OpRunPull
        | OpRunInspect, OpRunInspect | OpRunStart, OpRunStart
        | OpCommit, OpCommit | OpCommitInspect, OpCommitInspect => Some e
        | _, _ => None
        end.

End Sample.

(* ===================================================================== *)
(** ** Outcomes of computations *)
(* ===================================================================== *)

Import Docker Cache.

(** [wp m Q w]: the outcome of [m] from [w] (value or exception, and the
    world reached) satisfies [Q]. Computations are total, so this is a
    total-correctness statement. *)
Definition wp {A} (m : M A) (Q : exn + A → World → Prop) (w : World) : Prop :=
  Q (m w).1 (m w).2.

(* ===================================================================== *)
(** ** One more sample world *)
(* ===================================================================== *)


(* ===================================================================== *)
(** ** The image pull script ([scripts/pull_images.py]) *)
(* ===================================================================== *)

Module PullImages.
Import Docker.

(** [s.split(c, 1)] when [c] occurs in [s]: the text before the first [c]
    and the text after it. When [c] does not occur the second part is
    empty. *)
Fixpoint split_once (c : ascii) (s : string) : string * string :=
  match s with
  | EmptyString => (EmptyString, EmptyString)
  | String a s' =>
      if Ascii.eqb a c then (EmptyString, s')
      else let '(before, after) := split_once c s' in (String a before, after)
  end.

Definition DEFAULT_REMOTE_PREFIX : string := "ghcr.io/kndy666".

(** A field of a dataset instance as [instance.get(key)] returns it: absent
    or null, a string, or an integer. *)
Inductive jvalue := JNone | JStr (s : string) | JInt (n : Z).

(** [bool(v)] *)
Definition truthy (v : jvalue) : bool :=
  match v with
  | JNone => false
  | JStr s => negb (String.eqb s "")
  | JInt n => negb (Z.eqb n 0)
  end.

(** [f"{v}"] *)
Definition format (v : jvalue) : string :=
  match v with
  | JNone => "None"
  | JStr s => s
  | JInt n => pretty n
  end.

Record instance := {
  docker_image : option string;
  inst_repo : jvalue;
  inst_number : jvalue
}.

(** The dataset file: absent, not JSON ([str(e)] of the parse error), or a
    list of instances. *)
Inductive dataset :=
| Missing
| Unparsable (reason : string)
| Loaded (data : list instance).

(** The body of the loop of [parse_dataset_for_images]. An integer [repo]
    has no [replace]: the [AttributeError] is caught and the instance
    skipped. *)
Definition add_instance (images : gset string) (i : instance) : gset string :=
  let by_name :=
    if truthy (inst_repo i) && truthy (inst_number i) then
      match inst_repo i with
      | JStr r =>
          {[ "featbench_" +:+ PyStr.lower (PyStr.replace r "/" "_") +:+ ":"
             +:+ format (inst_number i) ]} ∪ images
      | _ => images
      end
    else images in
  match docker_image i with
  | Some d => if negb (String.eqb d "") then {[ d ]} ∪ images else by_name
  | None => by_name
  end.

(** [parse_dataset_for_images]: the lines printed and the set returned. *)
Definition parse_dataset_for_images (dataset_path : string) (file : dataset)
  : list string * gset string :=
  match file with
  | Missing => (["Dataset not found at " +:+ dataset_path], ∅)
  | Unparsable reason => (["Failed to parse dataset: " +:+ reason], ∅)
  | Loaded data => ([], foldl add_instance ∅ data)
  end.

(** [build_remote_name] *)
Definition build_remote_name (short_image : string) : string :=
  if PyStr.contains "/" short_image && negb (PyStr.startswith short_image "featbench_")
  then short_image
  else DEFAULT_REMOTE_PREFIX +:+ "/" +:+ short_image.

(** The daemon as the script uses it. Image names are taken as written. *)
Inductive request :=
| Get (name : string)
| Pull (remote : string)
| Tag (image : string) (repository : string) (tag : option string).

Record Daemon := {
  local : gmap string string;
  registry : gmap string string;
  refuses : request → option exn;
  asked : list request;
  printed : list string
}.

Definition P (A : Type) : Type := Daemon → (exn + A) * Daemon.

#[global] Instance P_ret : MRet P := λ A a d, (inr a, d).

#[global] Instance P_bind : MBind P := λ A B f m d,
  match m d with
  | (inr a, d') => f a d'
  | (inl e, d') => (inl e, d')
  end.

Definition throw {A} (e : exn) : P A := λ d, (inl e, d).

Definition catch {A} (body : P A) (handler : exn → P A) : P A := λ d,
  match body d with
  | (inl e, d') => handler e d'
  | (inr a, d') => (inr a, d')
  end.

(** [print(line)] *)
Definition print (line : string) : P unit := λ d,
  (inr tt, {| local := local d; registry := registry d; refuses := refuses d;
              asked := asked d; printed := printed d ++ [line] |}).

Definition ask (r : request) : P unit := λ d,
  let d' := {| local := local d; registry := registry d; refuses := refuses d;
               asked := asked d ++ [r]; printed := printed d |} in
  match refuses d r with
  | Some e => (inl e, d')
  | None => (inr tt, d')
  end.

Definition view {A} (f : Daemon → A) : P A := λ d, (inr (f d), d).

Definition store (name id : string) : P unit := λ d,
  (inr tt, {| local := <[name := id]> (local d); registry := registry d;
              refuses := refuses d; asked := asked d; printed := printed d |}).

(** [isinstance(e, docker.errors.APIError)] *)
Definition isinstance_APIError (e : exn) : bool :=
  match exn_cls e with NotFound | ImageNotFound | APIError => true | _ => false end.

(** [client.images.get(name)] *)
Definition images_get (name : string) : P Image :=
  ask (Get name);;
  images ← view local;
  match images !! name with
  | Some id => mret (ImageOf id)
  | None => throw (Exn ImageNotFound ("No such image: " +:+ name))
  end.

(** [client.images.pull(remote)] *)
Definition images_pull (remote : string) : P Image :=
  ask (Pull remote);;
  remotes ← view registry;
  match remotes !! remote with
  | Some id => store remote id;; mret (ImageOf id)
  | None => throw (Exn NotFound ("manifest unknown: " +:+ remote))
  end.

(** [image.tag(repository=repository, tag=tag)] *)
Definition image_tag (image : Image) (repository : string) (tag : option string)
  : P bool :=
  ask (Tag (image_id image) repository tag);;
  store (repository +:+ ":" +:+ default "latest" tag) (image_id image);;
  mret true.

(** [tag_local] *)
Definition tag_local (remote_image local_image : string) : P bool :=
  print ("  -> Tagging " +:+ remote_image +:+ " -> " +:+ local_image);;
  catch
    (image ← images_get remote_image;
     let '(repo, tag) :=
       if PyStr.contains ":" local_image
       then let '(r, t) := split_once ":" local_image in (r, Some t)
       else (local_image, None) in
     image_tag image repo tag)
    (λ e,
       if isinstance_ImageNotFound e then
         print ("Remote image not found locally after pull: " +:+ remote_image);;
         mret false
       else if isinstance_APIError e then
         print ("Docker API error during tag: " +:+ exn_str e);;
         mret false
       else throw e).

(** [pull_image] *)
Definition pull_image (remote_image : string) : P bool :=
  print ("  -> Pulling " +:+ remote_image);;
  catch
    (images_pull remote_image;; mret true)
    (λ e,
       if isinstance_APIError e then
         print ("Docker API error during pull: " +:+ exn_str e);;
         mret false
       else throw e).

(** [_process_one] of [main], with [args.dry_run] as a parameter. *)
Definition process_one (dry_run : bool) (short_image : string)
  : P (string * bool * string) :=
  if negb (PyStr.contains ":" short_image) then
    mret (short_image, false, "invalid image (no tag found)")
  else
    let remote := build_remote_name short_image in
    if dry_run then
      mret (short_image, true,
            "dry-run: would pull " +:+ remote +:+ " and retag to " +:+ short_image)
    else
      local_exists ← catch (images_get short_image;; mret true)
                        (λ e, if isinstance_ImageNotFound e then mret false
                              else throw e);
      if local_exists : bool then
        mret (short_image, true, "local image already present")
      else
        success ← pull_image remote;
        if negb success then
          mret (short_image, false, "failed to pull " +:+ remote)
        else
          ok ← tag_local remote short_image;
          if negb ok then
            mret (short_image, false,
                  "failed to tag " +:+ remote +:+ " as " +:+ short_image)
          else
            mret (short_image, true,
                  "pulled " +:+ remote +:+ ", retagged to " +:+ short_image).

(** [pwp m Q d]: the outcome of [m] from [d] satisfies [Q]. *)
Definition pwp {A} (m : P A) (Q : exn + A → Daemon → Prop) (d : Daemon) : Prop :=
  Q (m d).1 (m d).2.

(** A daemon with nothing local and one image in the registry. *)
Definition sample_daemon : Daemon :=
  {| local := ∅; registry := {["ghcr.io/kndy666/featbench_octocat_demo:42" := "sha256:r1"]};
     refuses := λ _, None; asked := []; printed := [] |}.

End PullImages.

(* ===================================================================== *)
(** ** The candidate repositories ([data_collect/utils.py]) *)
(* ===================================================================== *)

Module GitHub.

Section candidates.
Context {A : Type}.

(** What one request of [get_candidate_repos] ends in: [requests.get]
    raises (no connection, timeout), [raise_for_status] raises an
    [HTTPError] with that status and [str(e)], or the decoded page with its [items] and
    [total_count]. *)
Inductive response :=
| RequestFailed (reason : string)
| HttpError (status : nat) (message : string)
| Page (items : list A) (total_count : nat).

(** How the function ends: an exception that it does not catch, the list it
    returns, or (for the model only) the loop cut short. *)
Inductive outcome :=
| Raised (reason : string)
| Returned (repos : list (A * nat))
| OutOfFuel.

(** The [for i, repo in enumerate(repos)] loop: a repository whose rank is
    in range gets its rank and is appended. *)
Fixpoint rank_page (rank_start rank_end current_repo_count i : nat) (repos : list A)
  : list (A * nat) :=
  match repos with
  | [] => []
  | repo :: rest =>
      let repo_rank := current_repo_count + i + 1 in
      (if (rank_start <=? repo_rank) && (repo_rank <=? rank_end)
       then [(repo, repo_rank)] else [])
      ++ rank_page rank_start rank_end current_repo_count (S i) rest
  end.

(** The [while True] loop, [fuel] bounding the iterations. *)
Fixpoint fetch (fuel : nat) (server : nat → response) (rank_start rank_end : nat)
    (page current_repo_count : nat) (all_repos : list (A * nat)) (out : list string)
  : list string * outcome :=
  let finish out :=
    (out ++ ["✅ Total retrieved " +:+ pretty (length all_repos)
             +:+ " repositories within ranking range " +:+ pretty rank_start
             +:+ "-" +:+ pretty rank_end], Returned all_repos) in
  match fuel with
  | O => (out, OutOfFuel)
  | S fuel' =>
      match server page with
      | RequestFailed reason => (out, Raised reason)
      | HttpError status message =>
          (out ++ ["HTTP Error: " +:+ message]
               ++ (if status =? 403
                   then ["API rate limit exceeded. Please use Token or wait and retry."]
                   else []),
           Returned [])
      | Page repos total_count =>
          match repos with
          | [] => finish out
          | _ =>
              let page_start_rank := current_repo_count + 1 in
              let page_end_rank := current_repo_count + length repos in
              let out1 := out ++ ["✅ Retrieved page " +:+ pretty page
                                    +:+ ", repository ranking "
                                    +:+ pretty page_start_rank +:+ "-"
                                    +:+ pretty page_end_rank] in
              if rank_end <? page_start_rank then
                (out1 ++ ["Exceeded target ranking range " +:+ pretty rank_end
                          +:+ ", stopping fetch";
                          "✅ Total retrieved " +:+ pretty (length all_repos)
                          +:+ " repositories within ranking range "
                          +:+ pretty rank_start +:+ "-" +:+ pretty rank_end],
                 Returned all_repos)
              else
                let all_repos' :=
                  all_repos ++ rank_page rank_start rank_end current_repo_count 0 repos in
                let current_repo_count' := current_repo_count + length repos in
                let total out :=
                  (out ++ ["✅ Total retrieved " +:+ pretty (length all_repos')
                           +:+ " repositories within ranking range "
                           +:+ pretty rank_start +:+ "-" +:+ pretty rank_end],
                   Returned all_repos') in
                if rank_end <=? page_end_rank then
                  total (out1 ++ ["Retrieved target ranking range " +:+ pretty rank_end
                                  +:+ ", stopping fetch"])
                else if (total_count <=? current_repo_count') || (10 <=? page) then
                  total out1
                else
                  fetch fuel' server rank_start rank_end (page + 1)
                    current_repo_count' all_repos' out1
          end
      end
  end.

(** [get_candidate_repos(min_stars, rank_start, rank_end)]: [server] answers
    the search for the given [min_stars], page by page. *)
Definition get_candidate_repos (server : nat → response) (min_stars rank_start rank_end : nat)
  : list string * outcome :=
  fetch 10 server rank_start rank_end 1 0 []
    ["Getting Python repositories with Stars >= " +:+ pretty min_stars
     +:+ ", filtering ranking " +:+ pretty rank_start +:+ "-" +:+ pretty rank_end
     +:+ "..."].

(** The repositories of the pages 1 to [n], in order. *)
Definition items_of (r : response) : list A :=
  match r with Page items _ => items | _ => [] end.

Definition listing (server : nat → response) (n : nat) : list A :=
  concat (map (λ p, items_of (server p)) (seq 1 n)).

End candidates.
Arguments response : clear implicits.
Arguments outcome : clear implicits.

(** A server with seven repositories on three pages, and one that differs
    from it on page 11 only. *)
Definition sample_server (p : nat) : response string :=
  match p with
  | 1 => Page ["a"; "b"; "c"] 7
  | 2 => Page ["d"; "e"; "f"] 7
  | 3 => Page ["g"] 7
  | _ => Page [] 7
  end.

Definition sample_server' (p : nat) : response string :=
  match p with
  | 11 => HttpError 500 "500 Server Error"
  | _ => sample_server p
  end.

End GitHub.

(* ===================================================================== *)
(** ** Pull request links ([data_collect/release_analyzer.py], [utils.py]) *)
(* ===================================================================== *)

Module PullRequests.

(** [c] is one of [0] to [9]: what [\d] matches in ASCII text. In a [str]
    pattern [\d] also matches the decimal digits of other scripts; the
    statements that depend on it are about ASCII URLs. *)
Definition is_digit (c : ascii) : bool :=
  let n := nat_of_ascii c in (48 <=? n)%nat && (n <=? 57)%nat.

(** The longest run of digits [s] starts with: what a greedy [\d*] takes. *)
Fixpoint take_digits (s : string) : string :=
  match s with
  | EmptyString => EmptyString
  | String c s' => if is_digit c then String c (take_digits s') else EmptyString
  end.

(** [s[n:]] *)
Fixpoint drop (n : nat) (s : string) : string :=
  match n, s with
  | O, _ => s
  | S n', String _ s' => drop n' s'
  | S _, EmptyString => EmptyString
  end.

(** [re.match(r'/pull/(\d+)', s)]: group 1 of the match at the start of
    [s], if there is one. *)
Definition match_pull (s : string) : option string :=
  if PyStr.startswith s "/pull/" then
    match take_digits (drop 6 s) with
    | EmptyString => None
    | digits => Some digits
    end
  else None.

(** [re.search(r'/pull/(\d+)', s)]: the leftmost match. *)
Fixpoint search_pull (s : string) : option string :=
  match match_pull s with
  | Some digits => Some digits
  | None =>
      match s with
      | EmptyString => None
      | String _ s' => search_pull s'
      end
  end.

(** [extract_pr_number_from_url] *)
Definition extract_pr_number_from_url (pr_url : string) : option string :=
  search_pull pr_url.

(** An item of the LLM result: a dict that may hold ['pr_ids'] (the ids as
    [f"{pr_id}"] prints them) and ['description']. *)
Record llm_item := {
  pr_ids : option (list string);
  description : option string
}.

Record FeatureAnalysis := {
  feature_type : string;
  fa_description : string;
  pr_links : list string
}.

(** [f"https://github.com/{repo_name}/pull/{pr_id}"] *)
Definition pr_link (repo_name pr_id : string) : string :=
  "https://github.com/" +:+ repo_name +:+ "/pull/" +:+ pr_id.

(** [convert_to_feature_analysis] of [analyze_release]: both loops append
    to a list that starts empty. *)
Definition convert_to_feature_analysis (repo_name : string)
    (items : list llm_item) (ftype : string) : list FeatureAnalysis :=
  foldl
    (λ features item,
       let links :=
         match pr_ids item with
         | Some ids => foldl (λ links pr_id, links ++ [pr_link repo_name pr_id]) [] ids
         | None => []
         end in
       features ++ [ {| feature_type := ftype;
                        fa_description := default "" (description item);
                        pr_links := links |} ])
    [] items.

Fixpoint all_digits (s : string) : bool :=
  match s with
  | EmptyString => true
  | String c s' => is_digit c && all_digits s'
  end.

End PullRequests.

(* ===================================================================== *)
(** ** Key derivation on examples *)
(* ===================================================================== *)

Example init_octocat :
  let m := init "/opt/agent" "octocat/demo" "42" 300 in
  repo m = "octocat_demo" ∧ repo_lower m = "octocat_demo".
Proof. split; reflexivity. Qed.

Example init_upper :
  repo_lower (init "/opt/agent" "PyData/XArray" "7" 300) = "pydata_xarray".
Proof. reflexivity. Qed.

(* ===================================================================== *)
(** ** Symbolic execution *)
(* ===================================================================== *)

Lemma wp_elim {A} (m : M A) Q w r w' : wp m Q w → m w = (r, w') → Q r w'.
Proof. unfold wp. intros H E. by rewrite E in H. Qed.

Lemma wp_intro {A} (m : M A) (Q : exn + A → World → Prop) w :
  (∀ r w', m w = (r, w') → Q r w') → wp m Q w.
Proof. unfold wp. intros H. apply H. by destruct (m w). Qed.

Lemma wp_ret {A} (a : A) Q w : Q (inr a) w → wp (mret a) Q w.
Proof. done. Qed.

Lemma wp_raise {A} (e : exn) (Q : exn + A → World → Prop) w :
  Q (inl e) w → wp (raise e) Q w.
Proof. done. Qed.

Lemma wp_gets {A} (f : World → A) Q w : Q (inr (f w)) w → wp (gets f) Q w.
Proof. done. Qed.

Lemma wp_modify (f : World → World) Q w : Q (inr tt) (f w) → wp (modify f) Q w.
Proof. done. Qed.

Lemma wp_bind {A B} (m : M A) (f : A → M B) Q w :
  wp m (λ r w1, match r with inr a => wp (f a) Q w1 | inl e => Q (inl e) w1 end) w →
  wp (m ≫= f) Q w.
Proof. unfold wp, mbind, M_bind. by destruct (m w) as [[e|a] w1]. Qed.

Lemma wp_try_except {A} (body : M A) (h : exn → M A) Q w :
  wp body (λ r w1, match r with inr a => Q (inr a) w1 | inl e => wp (h e) Q w1 end) w →
  wp (try_except body h) Q w.
Proof. unfold wp, try_except. by destruct (body w) as [[e|a] w1]. Qed.

Lemma wp_mono {A} (m : M A) (P Q : exn + A → World → Prop) w :
  wp m P w → (∀ r w', P r w' → Q r w') → wp m Q w.
Proof. unfold wp. auto. Qed.

Ltac head_const t := lazymatch t with ?f _ => head_const f | _ => t end.

(** A case of the program text: reuse what is known about the scrutinee,
    else split on it and remember the case. String comparisons are turned
    into (in)equalities. *)
Ltac wp_case x :=
  first
    [ match goal with H : x = _ |- _ => rewrite H end
    | lazymatch x with
      | String.eqb ?a ?b =>
          let E := fresh "E" in
          destruct (String.eqb_spec a b) as [E|E]; [try subst|]
      | _ => destruct x eqn:?
      end ].

(** One step of symbolic execution. *)
Ltac wp_step :=
  lazymatch goal with
  | |- wp (mret _) _ _ => apply wp_ret
  | |- wp (raise _) _ _ => apply wp_raise
  | |- wp (gets _) _ _ => apply wp_gets
  | |- wp (modify _) _ _ => apply wp_modify
  | |- wp (log _ _) _ _ => apply wp_modify
  | |- wp (_ ≫= _) _ _ => apply wp_bind
  | |- wp (try_except _ _) _ _ => apply wp_try_except
  | |- wp (match ?x with _ => _ end) _ _ => wp_case x
  | |- wp (if ?x then _ else _) _ _ => wp_case x
  | |- wp ?m _ _ => let h := head_const m in unfold h
  end; simpl.

Ltac wp_run := repeat wp_step.

(** The calls issued, once the final world is a stack of updates of the
    initial one. *)
Lemma issued_app (w w' : World) (l : list call) :
  calls w' = calls w ++ l → issued w w' = l.
Proof. unfold issued. intros ->. by rewrite drop_app_length. Qed.

Lemma issued_refl (w w' : World) : calls w' = calls w → issued w w' = [].
Proof. unfold issued. intros ->. by rewrite drop_all. Qed.

(** What is known of a world left by [containers_run]. *)
Ltac use_run_facts :=
  repeat match goal with
    | H : calls ?w' = _ |- context [calls ?w'] => rewrite H
    | H : logs ?w' = _ |- context [logs ?w'] => rewrite H
    | H : faults ?w' = _ |- context [faults ?w'] => rewrite H
    | H : containers ?w' = _ |- context [containers ?w'] => rewrite H
    end.

Ltac calc_issued :=
  repeat match goal with
    | |- context [issued ?w ?w'] =>
        first
          [ rewrite (issued_refl w w') by reflexivity
          | erewrite (issued_app w w')
              by (simpl; use_run_facts; simpl; rewrite <- ?app_assoc; reflexivity) ]
    end; simpl.

(** The lookups that close a branch. *)
Ltac close_branch :=
  intros; simplify_eq; unfold runs_in_daemon in *; simpl; calc_issued;
  use_run_facts; simpl in *;
  repeat case_decide; simplify_eq;
  rewrite ?lookup_insert_eq, ?lookup_delete_eq in *;
  repeat split; try done; try congruence.

(** [containers_run], once and for all. *)
Lemma containers_run_spec (image : string) (config : container_config) (w : World) :
  wp (containers_run image config) (run_post image config w) w.
Proof.
  unfold run_post.
  wp_run; simplify_eq; simpl;
    repeat split; try done;
    try (intros; by rewrite ?lookup_insert_ne);
    try (by rewrite insert_insert_eq).
Qed.

(** Symbolic execution that takes [containers_run] as one step. *)
Ltac wp_step_run :=
  lazymatch goal with
  | |- wp (containers_run ?image ?config) _ ?w =>
      apply (wp_mono _ _ _ _ (containers_run_spec image config w));
      let Hcalls := fresh "Hcalls" in
      let Hlogs := fresh "Hlogs" in
      let Hfaults := fresh "Hfaults" in
      let Hframe := fresh "Hframe" in
      let Hres := fresh "Hres" in
      let Hfree := fresh "Hfree" in
      let Hconts := fresh "Hconts" in
      intros [?|?] ? (Hcalls & Hlogs & Hfaults & Hframe & Hres);
      [|destruct Hres as (-> & Hfree & Hconts)];
      simpl in *
  end.

Ltac wp_fast := repeat first [wp_step_run | wp_step].

(** From an equation on the outcome to [wp], for a postcondition on the
    world alone. *)
Lemma wp_world {A} (m : M A) (P : World → Prop) w :
  wp m (λ _ w', P w') w → P (m w).2.
Proof. done. Qed.

Lemma wp_outcome {A} (m : M A) (P : (exn + A) * World → Prop) w :
  wp m (λ r w', P (r, w')) w → P (m w).
Proof. unfold wp. by destruct (m w). Qed.


Lemma acquire_miss self w w1 :
  check_cached_container self w = (inr None, w1) →
  acquireEnvironment self w = after_miss self w1.
Proof. intros H. unfold acquireEnvironment, mbind, M_bind at 1. by rewrite H. Qed.

(* ===================================================================== *)
(** ** Strings *)
(* ===================================================================== *)

Lemma replace_slash_map (s : string) :
  PyStr.replace s "/" "_" = PyStr.map_chars PyStr.slash_to_underscore s.
Proof.
  unfold PyStr.replace. induction s as [|c s IH]; [done|].
  cbn [PyStr.replace_from PyStr.map_chars]. unfold PyStr.startswith.
  cbn [String.prefix String.length Nat.sub]. unfold PyStr.slash_to_underscore at 1.
  destruct (ascii_dec "/" c) as [<-|Hne].
  - replace (String.prefix "" s) with true by (by destruct s).
    rewrite IH. reflexivity.
  - rewrite IH. f_equal. destruct (Ascii.eqb_spec c "/"); congruence.
Qed.

Lemma lower_map (s : string) : PyStr.lower s = PyStr.map_chars PyStr.lower_char s.
Proof. induction s; simpl; congruence. Qed.

Lemma app_assoc_str (a b c : string) : (a +:+ b) +:+ c = a +:+ (b +:+ c).
Proof.
  induction a as [|x a IH]; [done|].
  change (String x ((a +:+ b) +:+ c) = String x (a +:+ b +:+ c)). by rewrite IH.
Qed.
Lemma map_slash_inj (n1 n2 : string) :
  PyStr.mem_char "_" n1 = false → PyStr.mem_char "_" n2 = false →
  PyStr.map_chars PyStr.slash_to_underscore n1
  = PyStr.map_chars PyStr.slash_to_underscore n2 →
  n1 = n2.
Proof.
  revert n2. induction n1 as [|a n1 IH]; intros [|b n2]; simpl; try done.
  intros [Ha H1]%orb_false_elim [Hb H2]%orb_false_elim [= Hab Hrest].
  f_equal; [|by apply IH].
  unfold PyStr.slash_to_underscore in Hab.
  destruct (Ascii.eqb_spec a "/"), (Ascii.eqb_spec b "/"); subst; try done.
Qed.

(* ===================================================================== *)
(** ** The acquire protocol *)
(* ===================================================================== *)

(** C1 (as amended). Every handle returned by a branch of the acquire
    protocol (reuse of a running container, restart of an exited one, run
    from the cached image, run from a freshly built image, and the protocol
    as a whole) refers to the container named after the repository, which
    the daemon reports as [running] at that moment. The status the handle
    itself reports is the one fetched when the handle was made: [running]
    on reuse, [exited] after a restart, [created] after a run. A start call
    is issued exactly once when the container was found [exited], and not at
    all otherwise. *)
Theorem returned_handle_runs_in_daemon (self : CacheManager) (w w' : World)
    (c : Container) :
  check_cached_container self w = (inr (Some c), w') ∨
  create_container_from_cached_image self w = (inr c, w') ∨
  create_new_container self w = (inr c, w') ∨
  acquireEnvironment self w = (inr c, w') →
  handle_name c = repo self ∧
  runs_in_daemon w' c ∧
  handle_status c
  = (if decide (containers w !! repo self = Some "running") then "running"
     else if decide (containers w !! repo self = Some "exited") then "exited"
     else "created") ∧
  count is_start (issued w w')
  = if decide (containers w !! repo self = Some "exited") then 1 else 0.
Proof.
  set (Q := λ (w' : World) (c : Container),
         handle_name c = repo self ∧
         runs_in_daemon w' c ∧
         handle_status c
         = (if decide (containers w !! repo self = Some "running") then "running"
            else if decide (containers w !! repo self = Some "exited") then "exited"
            else "created") ∧
         count is_start (issued w w')
         = if decide (containers w !! repo self = Some "exited") then 1 else 0).
  intros [H|[H|[H|H]]].
  - refine (wp_elim _ (λ r w', ∀ c, r = inr (Some c) → Q w' c) w _ _ _ H c eq_refl).
    clear. wp_fast; unfold Q; close_branch.
  - refine (wp_elim _ (λ r w', ∀ c, r = inr c → Q w' c) w _ _ _ H c eq_refl).
    clear. wp_fast; unfold Q; close_branch.
  - refine (wp_elim _ (λ r w', ∀ c, r = inr c → Q w' c) w _ _ _ H c eq_refl).
    clear. wp_fast; unfold Q; close_branch.
  - refine (wp_elim _ (λ r w', ∀ c, r = inr c → Q w' c) w _ _ _ H c eq_refl).
    clear. wp_fast; unfold Q; close_branch.
Qed.

Lemma returned_handle_runs_in_daemon_witness :
  let w := with_containers {["octocat_demo" := "exited"]} Sample.quiet in
  let w' := (acquireEnvironment Sample.octocat w).2 in
  let c := Handle "octocat_demo" "exited" in
  handle_name c = "octocat_demo" ∧
  runs_in_daemon w' c ∧
  handle_status c = "exited" ∧
  count is_start (issued w w') = 1.
Proof.
  cbv zeta.
  refine (returned_handle_runs_in_daemon Sample.octocat
            (with_containers {["octocat_demo" := "exited"]} Sample.quiet) _ _ _).
  right; right; right. vm_compute; reflexivity.
Defined.

(** C1, as stated, fails: the handle returned after a restart reports
    [exited] although its container runs, and the handle returned after a
    run reports [created]. *)
Lemma returned_handle_reports_stale_status :
  let w := with_containers {["octocat_demo" := "exited"]} Sample.quiet in
  (acquireEnvironment Sample.octocat w).1 = inr (Handle "octocat_demo" "exited") ∧
  containers (acquireEnvironment Sample.octocat w).2 !! "octocat_demo"
  = Some "running" ∧
  (acquireEnvironment Sample.octocat Sample.quiet).1
  = inr (Handle "octocat_demo" "created") ∧
  containers (acquireEnvironment Sample.octocat Sample.quiet).2 !! "octocat_demo"
  = Some "running".
Proof. cbv zeta. repeat split; vm_compute; reflexivity. Qed.








(** C3 (as amended). A transport error in the container lookup or in the
    image lookup is caught inside the manager: it is logged at error level
    and the method returns what it returns for not-found ([None], resp.
    [False]), where not-found is logged at info level; the protocol then
    falls back to the image lookup, resp. to the build trigger. *)
Theorem lookup_errors_swallowed (self : CacheManager) (w : World) (e : exn) :
  is_transport e = true →
  (faults w OpContainersGet = Some e →
   check_cached_container self w
   = (inr None,
      with_log ERROR ("Error checking cached container: " +:+ exn_str e)
        (with_call (ContainersGet (repo self)) w)) ∧
   ∃ l, issued w (acquireEnvironment self w).2
        = [ContainersGet (repo self); ImagesGet (image_key self)] ++ l) ∧
  (faults w OpContainersGet = None → containers w !! repo self = None →
   check_cached_container self w
   = (inr None,
      with_log INFO ("Cached container not found: " +:+ repo self)
        (with_call (ContainersGet (repo self)) w))) ∧
  (faults w OpImagesGet = Some e →
   check_cached_image self w
   = (inr false,
      with_log ERROR ("Error checking cached image: " +:+ exn_str e)
        (with_call (ImagesGet (image_key self)) w)) ∧
   ∀ w0, check_cached_container self w0 = (inr None, w) →
         ∃ l, issued w (acquireEnvironment self w0).2
              = [ImagesGet (image_key self); BuildImage (repo self)] ++ l) ∧
  (faults w OpImagesGet = None → images w !! image_key self = None →
   check_cached_image self w
   = (inr false,
      with_log INFO ("Cached image not found: " +:+ image_key self)
        (with_call (ImagesGet (image_key self)) w))).
Proof.
  intros He.
  assert (isinstance_NotFound e = false) as Hnf.
  { unfold is_transport, isinstance_NotFound in *. by destruct (exn_cls e). }
  assert (isinstance_ImageNotFound e = false) as Hinf.
  { unfold is_transport, isinstance_ImageNotFound in *. by destruct (exn_cls e). }
  unfold image_key. repeat split.
  - apply (wp_outcome (check_cached_container self) (λ p, p = _)). by wp_fast.
  - erewrite acquire_miss;
      [|apply (wp_outcome (check_cached_container self) (λ p, p = _)); by wp_fast].
    apply (wp_world (after_miss self) (λ w', ∃ l, issued w w' = _ ++ l)).
    unfold after_miss. wp_fast; calc_issued; eexists; reflexivity.
  - intros. apply (wp_outcome (check_cached_container self) (λ p, p = _)). by wp_fast.
  - apply (wp_outcome (check_cached_image self) (λ p, p = _)). by wp_fast.
  - intros w0 H0. rewrite (acquire_miss _ _ _ H0).
    apply (wp_world (after_miss self) (λ w', ∃ l, issued w w' = _ ++ l)).
    unfold after_miss. wp_fast; calc_issued; eexists; reflexivity.
  - intros. apply (wp_outcome (check_cached_image self) (λ p, p = _)). by wp_fast.
Qed.

Lemma lookup_errors_swallowed_witness :
  let w := Sample.with_faults (λ _, Some Sample.unreachable) Sample.quiet in
  is_transport Sample.unreachable = true ∧
  check_cached_container Sample.octocat w
  = (inr None,
     with_log ERROR "Error checking cached container: Connection refused"
       (with_call (ContainersGet "octocat_demo") w)) ∧
  check_cached_image Sample.octocat w
  = (inr false,
     with_log ERROR "Error checking cached image: Connection refused"
       (with_call (ImagesGet "featbench_octocat_demo:42") w)).
Proof.
  cbv zeta. split; [reflexivity|].
  pose proof (lookup_errors_swallowed Sample.octocat
                (Sample.with_faults (λ _, Some Sample.unreachable) Sample.quiet)
                Sample.unreachable eq_refl) as (H1 & _ & H3 & _).
  split; [apply H1 | apply H3]; reflexivity.
Defined.

(** C3, as stated, fails: with the daemon unreachable for the container
    lookup the protocol returns a container run from the cached image, and
    with the daemon unreachable for the image lookup it builds although the
    image is cached; no error reaches the caller. *)
Lemma transport_error_taken_as_miss :
  let cached := Sample.with_images {["featbench_octocat_demo:42" := "sha256:cached"]}
                  Sample.quiet in
  let w1 := Sample.with_faults (Sample.only OpContainersGet Sample.unreachable) cached in
  let w2 := Sample.with_faults (Sample.only OpImagesGet Sample.unreachable) cached in
  is_transport Sample.unreachable = true ∧
  (check_cached_container Sample.octocat w1).1 = inr None ∧
  (acquireEnvironment Sample.octocat w1).1 = inr (Handle "octocat_demo" "created") ∧
  (check_cached_image Sample.octocat w2).1 = inr false ∧
  (acquireEnvironment Sample.octocat w2).1 = inr (Handle "octocat_demo" "created") ∧
  count is_build (issued w2 (acquireEnvironment Sample.octocat w2).2) = 1.
Proof. cbv zeta. repeat split; vm_compute; reflexivity. Qed.

(* ===================================================================== *)
(** ** Keys *)
(* ===================================================================== *)

Lemma lower_char_small (c : ascii) : PyStr.lower_char c = PyStr.small_letter c.
Proof. destruct c as [[] [] [] [] [] [] [] []]; vm_compute; reflexivity. Qed.

Lemma map_chars_ext (f g : ascii → ascii) (s : string) :
  (∀ c, f c = g c) → PyStr.map_chars f s = PyStr.map_chars g s.
Proof. intros H. induction s; simpl; congruence. Qed.

(** C4. For an ASCII repository name, key derivation replaces every [/] of
    the name by [_] to form the container key, turns every capital of the
    container key into its small letter to form the image namespace, and
    the image looked up is [featbench_{namespace}:{task id}]. For
    ["octocat/demo"] and ["42"] these are ["octocat_demo"], ["octocat_demo"]
    and ["featbench_octocat_demo:42"]; for ["PyData/XArray"] and ["7"] they
    are ["PyData_XArray"], ["pydata_xarray"] and
    ["featbench_pydata_xarray:7"]. *)
Theorem key_derivation (base name task : string) (tmo : nat) (w : World) :
  PyStr.is_ascii name = true →
  let m := init base name task tmo in
  repo m = PyStr.map_chars PyStr.slash_to_underscore name ∧
  repo_lower m = PyStr.map_chars PyStr.small_letter (repo m) ∧
  issued w (check_cached_image m w).2
  = [ImagesGet ("featbench_" +:+ repo_lower m +:+ ":" +:+ task)] ∧
  (let o := init base "octocat/demo" "42" tmo in
   repo o = "octocat_demo" ∧ repo_lower o = "octocat_demo" ∧
   issued w (check_cached_image o w).2 = [ImagesGet "featbench_octocat_demo:42"]) ∧
  (let p := init base "PyData/XArray" "7" tmo in
   repo p = "PyData_XArray" ∧ repo_lower p = "pydata_xarray" ∧
   issued w (check_cached_image p w).2 = [ImagesGet "featbench_pydata_xarray:7"]).
Proof.
  intros _.
  assert (∀ m, issued w (check_cached_image m w).2
               = [ImagesGet ("featbench_" +:+ repo_lower m +:+ ":" +:+ repo_id m)]) as Hkey.
  { intros m. apply (wp_world (check_cached_image m) (λ w', issued w w' = _)).
    wp_run; by calc_issued. }
  cbv zeta. repeat split.
  - apply replace_slash_map.
  - unfold init. cbn [repo repo_lower]. rewrite lower_map.
    apply map_chars_ext, lower_char_small.
  - apply Hkey.
  - apply Hkey.
  - apply Hkey.
Qed.

Lemma key_derivation_witness :
  let m := init "/opt/agent" "PyData/XArray" "7" 300 in
  repo m = PyStr.map_chars PyStr.slash_to_underscore "PyData/XArray" ∧
  repo_lower m = PyStr.map_chars PyStr.small_letter (repo m) ∧
  issued Sample.quiet (check_cached_image m Sample.quiet).2
  = [ImagesGet ("featbench_" +:+ repo_lower m +:+ ":" +:+ "7")].
Proof.
  cbv zeta.
  pose proof (key_derivation "/opt/agent" "PyData/XArray" "7" 300 Sample.quiet eq_refl)
    as (H1 & H2 & H3 & _).
  exact (conj H1 (conj H2 H3)).
Defined.

(** C8 (as amended). Key derivation is total and checks for no collision;
    it is injective on repository names that contain no underscore. *)
Theorem container_key_injective (base1 base2 n1 n2 t1 t2 : string) (tmo1 tmo2 : nat) :
  PyStr.mem_char "_" n1 = false → PyStr.mem_char "_" n2 = false →
  repo (init base1 n1 t1 tmo1) = repo (init base2 n2 t2 tmo2) →
  n1 = n2.
Proof.
  intros H1 H2. unfold init. cbn [repo].
  rewrite !replace_slash_map. by apply map_slash_inj.
Qed.

Lemma container_key_injective_witness :
  PyStr.mem_char "_" "octocat/demo" = false ∧
  repo (init "/opt/agent" "octocat/demo" "42" 300)
  = repo (init "/srv/agent" "octocat/demo" "43" 60) ∧
  "octocat/demo" = "octocat/demo".
Proof.
  split; [reflexivity|]. split; [reflexivity|].
  apply (container_key_injective "/opt/agent" "/srv/agent" "octocat/demo" "octocat/demo"
           "42" "43" 300 60); reflexivity.
Defined.

(** C8, as stated, fails: ["a/b_c"] and ["a_b/c"] are distinct, both
    managers are built without error, both have the container key
    ["a_b_c"], and both are handed the same container. *)
Lemma container_key_collision :
  let m1 := init "/opt/agent" "a/b_c" "1" 300 in
  let m2 := init "/opt/agent" "a_b/c" "1" 300 in
  let w := with_containers {["a_b_c" := "running"]} Sample.quiet in
  "a/b_c" ≠ "a_b/c" ∧
  repo m1 = "a_b_c" ∧ repo m2 = "a_b_c" ∧
  (acquireEnvironment m1 w).1 = inr (Handle "a_b_c" "running") ∧
  (acquireEnvironment m2 w).1 = inr (Handle "a_b_c" "running").
Proof. cbv zeta. split; [done|]. repeat split; vm_compute; reflexivity. Qed.

(** C10. All operations of a manager agree on the derived keys: the lookup
    asks for the container named [repo]; both run paths pass the value of
    [common_container_config], whose name is [repo]; image lookup and run
    from the cached image use the image key; the commit's repository and tag
    join to the image key; and [repo_id] is the task id given at
    construction, [repo_lower] the lower-cased [repo]. *)
Theorem keys_agree (self : CacheManager) (c : Container) (w : World) :
  head (issued w (check_cached_container self w).2) = Some (ContainersGet (repo self)) ∧
  (∃ config,
     (common_container_config self w).1 = inr config ∧
     cfg_name config = repo self ∧
     issued w (create_container_from_cached_image self w).2
     = [ContainersRun (image_key self) config] ∧
     issued w (create_new_container self w).2
     = BuildImage (repo self)
       :: match build_result w (repo self) with
          | inr ref => [ContainersRun ref config]
          | inl _ => []
          end) ∧
  issued w (check_cached_image self w).2 = [ImagesGet (image_key self)] ∧
  (∃ repository tag,
     issued w (save_container_as_image self c w).2
     = [Commit (handle_name c) repository tag] ∧
     tag = repo_id self ∧
     repository +:+ ":" +:+ tag = image_key self) ∧
  (∀ base name task tmo,
     repo_id (init base name task tmo) = task ∧
     repo_lower (init base name task tmo) = PyStr.lower (repo (init base name task tmo))).
Proof.
  split; [|split; [|split; [|split]]].
  - apply (wp_world (check_cached_container self) (λ w', head (issued w w') = _)).
    wp_fast; by calc_issued.
  - exists ((if String.eqb (os_name w) "posix"
             then set_user (pretty (getuid w) +:+ ":" +:+ pretty (getgid w))
             else id)
              {| cfg_name := repo self; cfg_command := "/bin/bash";
                 cfg_detach := true; cfg_tty := true; cfg_runtime := "nvidia";
                 cfg_network_mode := "host";
                 cfg_device_requests :=
                   [ {| dr_count := (-1)%Z; dr_capabilities := [["gpu"]] |} ];
                 cfg_environment := docker_environment w;
                 cfg_volumes :=
                   [ (base_path self +:+ "/swap",
                      {| vol_bind := "/workdir/swap"; vol_mode := "rw" |}) ];
                 cfg_user := None |}).
    split; [|split; [|split]].
    + apply (wp_outcome (common_container_config self) (λ p, p.1 = _)).
      wp_fast; by rewrite ?Heqb.
    + by destruct (String.eqb _ _).
    + apply (wp_world (create_container_from_cached_image self) (λ w', issued w w' = _)).
      unfold image_key. wp_fast; calc_issued; try done.
      all: try (destruct (String.eqb_spec (os_name w) "posix"); done).
    + apply (wp_world (create_new_container self) (λ w', issued w w' = _)).
      wp_fast; calc_issued; try done.
      all: try (destruct (String.eqb_spec (os_name w) "posix"); done).
  - apply (wp_world (check_cached_image self) (λ w', issued w w' = _)).
    unfold image_key. wp_fast; by calc_issued.
  - exists ("featbench_" +:+ repo_lower self), (repo_id self).
    split; [|split; [done|]].
    + apply (wp_world (save_container_as_image self c) (λ w', issued w w' = _)).
      wp_fast; by calc_issued.
    + unfold image_key. apply app_assoc_str.
  - done.
Qed.

(* ===================================================================== *)
(** ** Checkpoint *)
(* ===================================================================== *)

Lemma save_stores_image self c w :
  wp (save_container_as_image self c)
    (λ r w1, ∀ id, r = inr id → images w1 !! image_key self = Some id) w.
Proof.
  wp_run; intros; simplify_eq; unfold image_key;
    rewrite app_assoc_str; apply lookup_insert_eq.
Qed.

(** C5 (as amended). After a successful checkpoint the image is stored
    under the image key. If the image is still there and the container has
    been removed, then a lookup that the daemon answers finds the image and
    the acquire protocol runs a container from it without calling the build
    trigger; a lookup that the daemon does not answer is taken for a miss,
    and the protocol goes on to the build trigger. *)
Theorem checkpoint_then_reacquire (self : CacheManager) (c : Container)
    (w w1 w2 : World) (id : string) :
  save_container_as_image self c w = (inr id, w1) →
  images w2 !! image_key self = images w1 !! image_key self →
  containers w2 !! repo self = None →
  images w1 !! image_key self = Some id ∧
  match faults w2 OpImagesGet with
  | None =>
      (check_cached_image self w2).1 = inr true ∧
      count is_build (issued w2 (acquireEnvironment self w2).2) = 0 ∧
      ∃ config,
        issued w2 (acquireEnvironment self w2).2
        = [ContainersGet (repo self); ImagesGet (image_key self);
           ContainersRun (image_key self) config] ∧
        cfg_name config = repo self
  | Some e =>
      (check_cached_image self w2).1 = inr false ∧
      ∃ l, issued w2 (acquireEnvironment self w2).2
           = [ContainersGet (repo self); ImagesGet (image_key self);
              BuildImage (repo self)] ++ l
  end.
Proof.
  intros Hsave Him Hnone.
  pose proof (wp_elim _ _ _ _ _ (save_stores_image self c w) Hsave id eq_refl) as Hid.
  rewrite Hid in Him. split; [done|]. unfold image_key in *.
  destruct (faults w2 OpImagesGet) as [e|] eqn:Hget.
  - split.
    + apply (wp_outcome (check_cached_image self) (λ p, p.1 = inr false)). by wp_run.
    + apply (wp_world (acquireEnvironment self) (λ w', ∃ l, issued w2 w' = _ ++ l)).
      wp_fast; calc_issued; eexists; reflexivity.
  - split; [|split].
    + apply (wp_outcome (check_cached_image self) (λ p, p.1 = inr true)). by wp_run.
    + apply (wp_world (acquireEnvironment self)
               (λ w', count is_build (issued w2 w') = 0)).
      wp_fast; by calc_issued.
    + apply (wp_world (acquireEnvironment self)
               (λ w', ∃ config, issued w2 w' = _ ∧ cfg_name config = repo self)).
      wp_fast; calc_issued; eexists; (split; [reflexivity|reflexivity]).
Qed.

Lemma checkpoint_then_reacquire_witness :
  let h := Handle "octocat_demo" "running" in
  let w := with_containers {["octocat_demo" := "running"]} Sample.quiet in
  let w1 := (save_container_as_image Sample.octocat h w).2 in
  let w2 := with_containers ∅ w1 in
  images w1 !! "featbench_octocat_demo:42" = Some "sha256:0" ∧
  (check_cached_image Sample.octocat w2).1 = inr true ∧
  count is_build (issued w2 (acquireEnvironment Sample.octocat w2).2) = 0 ∧
  ∃ config,
    issued w2 (acquireEnvironment Sample.octocat w2).2
    = [ContainersGet "octocat_demo"; ImagesGet "featbench_octocat_demo:42";
       ContainersRun "featbench_octocat_demo:42" config] ∧
    cfg_name config = "octocat_demo".
Proof.
  cbv zeta.
  refine (checkpoint_then_reacquire Sample.octocat (Handle "octocat_demo" "running")
            (with_containers {["octocat_demo" := "running"]} Sample.quiet)
            (save_container_as_image Sample.octocat (Handle "octocat_demo" "running")
               (with_containers {["octocat_demo" := "running"]} Sample.quiet)).2
            (with_containers ∅
               (save_container_as_image Sample.octocat (Handle "octocat_demo" "running")
                  (with_containers {["octocat_demo" := "running"]} Sample.quiet)).2)
            "sha256:0" _ _ _);
    vm_compute; reflexivity.
Defined.

(** C5, as stated, fails: after a successful checkpoint, with the image in
    place and the container removed, a daemon that does not answer the
    image lookup makes [check_cached_image] return [False], and the acquire
    protocol calls the build trigger. *)
Lemma unanswered_lookup_rebuilds :
  let h := Handle "octocat_demo" "running" in
  let w := with_containers {["octocat_demo" := "running"]} Sample.quiet in
  let saved := save_container_as_image Sample.octocat h w in
  let w2 := Sample.with_faults (Sample.only OpImagesGet Sample.unreachable)
              (with_containers ∅ saved.2) in
  saved.1 = inr "sha256:0" ∧
  images w2 !! "featbench_octocat_demo:42" = Some "sha256:0" ∧
  containers w2 !! "octocat_demo" = None ∧
  (check_cached_image Sample.octocat w2).1 = inr false ∧
  count is_build (issued w2 (acquireEnvironment Sample.octocat w2).2) = 1.
Proof. cbv zeta. repeat split; vm_compute; reflexivity. Qed.

(** C7 (as amended). A checkpoint makes exactly one commit call and looks
    nothing up before it, so an image already at the key goes unnoticed;
    it leaves the containers as they are and retries nothing. The daemon
    commits (moving the tag if the key is taken) when it answers the commit
    request and has the container. The call returns the id of the new image
    when, besides, the fetch of the new image is answered; in every other
    case the caller gets a [CacheError], with the image stored all the same
    if the daemon had committed. *)
Theorem checkpoint_commits_once (self : CacheManager) (c : Container) (w : World) :
  let r := (save_container_as_image self c w).1 in
  let w1 := (save_container_as_image self c w).2 in
  let committed :=
    bool_decide (faults w OpCommit = None ∧ is_Some (containers w !! handle_name c)) in
  let new_id := image_ids w (next_image w) in
  issued w w1
  = [Commit (handle_name c) ("featbench_" +:+ repo_lower self) (repo_id self)] ∧
  containers w1 = containers w ∧
  images w1
  = (if committed then <[image_key self := new_id]> (images w) else images w) ∧
  match r with
  | inr id => id = new_id ∧ committed = true ∧ faults w OpCommitInspect = None
  | inl e =>
      exn_cls e = CacheError ∧
      (committed = false ∨ is_Some (faults w OpCommitInspect))
  end.
Proof.
  cbv zeta.
  apply (wp_outcome (save_container_as_image self c)
           (λ p, issued w p.2 = _ ∧ containers p.2 = containers w ∧
                 images p.2 = (if bool_decide _ then _ else _) ∧
                 match p.1 with
                 | inr id => id = _ ∧ bool_decide _ = true ∧ _
                 | inl e => exn_cls e = CacheError ∧ (bool_decide _ = false ∨ _)
                 end)).
  wp_run; calc_issued; unfold image_key; rewrite <- ?app_assoc_str;
    (split; [done|]); (split; [done|]).
  all: cbn [fst snd]; (split; [done|]); repeat split; try done.
  all: first [by left | right; by eexists].
Qed.

(** C7, as stated, fails: with an image already at the key the checkpoint
    is an ordinary success; the id of a new image is returned, the key now
    designates it, and nothing tells the caller that an image was there. *)
Lemma existing_image_not_reported :
  let h := Handle "octocat_demo" "running" in
  let w := Sample.with_images {["featbench_octocat_demo:42" := "sha256:old"]}
             (with_containers {["octocat_demo" := "running"]} Sample.quiet) in
  let saved := save_container_as_image Sample.octocat h w in
  images w !! "featbench_octocat_demo:42" = Some "sha256:old" ∧
  saved.1 = inr "sha256:0" ∧
  images saved.2 !! "featbench_octocat_demo:42" = Some "sha256:0" ∧
  logs saved.2
  = [(INFO, "Saving container as image: featbench_octocat_demo");
     (INFO, "Successfully saved image: featbench_octocat_demo:latest (ID: sha256:0)")].
Proof. cbv zeta. repeat split; vm_compute; reflexivity. Qed.

(** C9 (as amended). When a checkpoint fails, for whatever reason, the
    caller gets a [CacheError] whose message is
    ["Failed to save container image: "] followed by the message of the
    error the commit ended in; the same text is logged at error level. *)
Theorem checkpoint_failure_wrapped (self : CacheManager) (c : Container)
    (w w1 : World) (e : exn) :
  save_container_as_image self c w = (inl e, w1) →
  ∃ e0 w0,
    commit c ("featbench_" +:+ repo_lower self) (repo_id self)
      (with_log INFO ("Saving container as image: featbench_" +:+ repo_lower self) w)
    = (inl e0, w0) ∧
    e = Exn CacheError ("Failed to save container image: " +:+ exn_str e0) ∧
    w1 = with_log ERROR ("Failed to save container image: " +:+ exn_str e0) w0.
Proof.
  unfold save_container_as_image, try_except, log, modify, raise.
  unfold mbind, M_bind. simpl.
  destruct (commit c _ _ _) as [[e0|img] w0] eqn:Hc; simpl; intros [= <- <-].
  by exists e0, w0.
Qed.

Lemma checkpoint_failure_wrapped_witness :
  let w := Sample.with_faults (Sample.only OpCommit Sample.unreachable)
             (with_containers {["octocat_demo" := "running"]} Sample.quiet) in
  ∃ e0 w0,
    commit (Handle "octocat_demo" "running") "featbench_octocat_demo" "42"
      (with_log INFO "Saving container as image: featbench_octocat_demo" w)
    = (inl e0, w0) ∧
    Exn CacheError "Failed to save container image: Connection refused"
    = Exn CacheError ("Failed to save container image: " +:+ exn_str e0) ∧
    (save_container_as_image Sample.octocat (Handle "octocat_demo" "running") w).2
    = with_log ERROR ("Failed to save container image: " +:+ exn_str e0) w0.
Proof.
  cbv zeta.
  refine (checkpoint_failure_wrapped Sample.octocat (Handle "octocat_demo" "running") _ _ _ _).
  vm_compute; reflexivity.
Defined.

(** C9, as stated, fails: a commit that cannot reach the daemon reaches the
    caller as a [CacheError], not as the original error, and its message
    names neither the repository nor the task id. *)
Lemma checkpoint_error_translated :
  let w := Sample.with_faults (Sample.only OpCommit Sample.unreachable)
             (with_containers {["octocat_demo" := "running"]} Sample.quiet) in
  let r := (save_container_as_image Sample.octocat (Handle "octocat_demo" "running") w).1 in
  isinstance_NotFound Sample.unreachable = false ∧
  r = inl (Exn CacheError "Failed to save container image: Connection refused") ∧
  r ≠ inl Sample.unreachable ∧
  PyStr.contains "octocat" "Failed to save container image: Connection refused" = false ∧
  PyStr.contains "42" "Failed to save container image: Connection refused" = false.
Proof. cbv zeta. repeat split; try (vm_compute; reflexivity). vm_compute. discriminate. Qed.

(* ===================================================================== *)
(** ** More on the manager's methods *)
(* ===================================================================== *)
(** X1. The answer of [check_cached_container], for every outcome of the
    requests to the daemon (a value, or an exception of a class derived
    from [Exception]): the handle of the container when the lookup is
    answered and the container is running, or is exited and the start is
    answered; [None] in every other case. No exception of a request
    escapes the method. *)
Theorem check_cached_container_answer (self : CacheManager) (w : World) :
  (check_cached_container self w).1
  = inr (match faults w OpContainersGet, containers w !! repo self with
         | None, Some st =>
             if decide (st = "running") then Some (Handle (repo self) "running")
             else if decide (st = "exited") then
               match faults w OpStart with
               | None => Some (Handle (repo self) "exited")
               | Some _ => None
               end
             else None
         | _, _ => None
         end).
Proof.
  apply (wp_outcome (check_cached_container self) (λ p, p.1 = inr _)).
  wp_run; repeat case_decide; simplify_eq; try done.
Qed.

(** X2. [check_cached_image] returns [True] exactly when the daemon answers
    the lookup and has an image under the image key; it changes neither the
    containers nor the images. *)
Theorem check_cached_image_answer (self : CacheManager) (w : World) :
  let w' := (check_cached_image self w).2 in
  (check_cached_image self w).1
  = inr (bool_decide (faults w OpImagesGet = None ∧ is_Some (images w !! image_key self))) ∧
  containers w' = containers w ∧ images w' = images w ∧ next_image w' = next_image w.
Proof.
  cbv zeta.
  apply (wp_outcome (check_cached_image self)
           (λ p, p.1 = inr (bool_decide _) ∧ containers p.2 = _ ∧ images p.2 = _
                 ∧ next_image p.2 = _)).
  unfold image_key.
  wp_run; (split; [f_equal; symmetry|done]).
  all: first [ apply bool_decide_eq_true | apply bool_decide_eq_false ].
  all: try (rewrite Heqo0; intros [? [? ?]]; congruence).
  all: try (intros [? ?]; congruence).
Qed.

(** X3. A running container is reused as it is: one lookup is the only
    call, and neither containers nor images change. *)
Theorem running_container_reused (self : CacheManager) (w : World) :
  containers w !! repo self = Some "running" →
  faults w OpContainersGet = None →
  let w' := with_log INFO ("Found running cached container: " +:+ repo self)
              (with_call (ContainersGet (repo self)) w) in
  check_cached_container self w = (inr (Some (Handle (repo self) "running")), w') ∧
  issued w w' = [ContainersGet (repo self)] ∧
  containers w' = containers w ∧ images w' = images w.
Proof.
  intros Hrun Hget w'.
  assert (check_cached_container self w
          = (inr (Some (Handle (repo self) "running")), w')) as Hc.
  { apply (wp_outcome (check_cached_container self) (λ p, p = _)). by wp_run. }
  split; [done|]. split; [|done].
  subst w'. by calc_issued.
Qed.

Lemma running_container_reused_witness :
  let w := with_containers {["octocat_demo" := "running"]} Sample.quiet in
  let w' := with_log INFO "Found running cached container: octocat_demo"
              (with_call (ContainersGet "octocat_demo") w) in
  check_cached_container Sample.octocat w
  = (inr (Some (Handle "octocat_demo" "running")), w') ∧
  issued w w' = [ContainersGet "octocat_demo"] ∧
  containers w' = containers w ∧ images w' = images w.
Proof.
  cbv zeta.
  refine (running_container_reused Sample.octocat
            (with_containers {["octocat_demo" := "running"]} Sample.quiet) _ _);
    vm_compute; reflexivity.
Defined.

(** X4. A manager touches no container but its own: every other container
    is as it was after each of the methods. *)
Theorem other_containers_untouched (self : CacheManager) (c : Container)
    (w : World) (name : string) :
  name ≠ repo self →
  containers (check_cached_container self w).2 !! name = containers w !! name ∧
  containers (check_cached_image self w).2 !! name = containers w !! name ∧
  containers (create_container_from_cached_image self w).2 !! name = containers w !! name ∧
  containers (create_new_container self w).2 !! name = containers w !! name ∧
  containers (save_container_as_image self c w).2 !! name = containers w !! name.
Proof.
  intros Hne.
  repeat split.
  - apply (wp_world (check_cached_container self) (λ w', containers w' !! name = _)).
    wp_run; by rewrite ?lookup_insert_ne, ?lookup_delete_ne.
  - apply (wp_world (check_cached_image self) (λ w', containers w' !! name = _)).
    by wp_run.
  - apply (wp_world (create_container_from_cached_image self)
             (λ w', containers w' !! name = _)).
    wp_fast; simpl; try done;
      match goal with H : ∀ n, n ≠ _ → containers _ !! n = _ |- _ => by apply H end.
  - apply (wp_world (create_new_container self) (λ w', containers w' !! name = _)).
    wp_fast; simpl; try done;
      match goal with H : ∀ n, n ≠ _ → containers _ !! n = _ |- _ => by apply H end.
  - apply (wp_world (save_container_as_image self c) (λ w', containers w' !! name = _)).
    by wp_run.
Qed.

Lemma other_containers_untouched_witness :
  let w := with_containers {["octocat_demo" := "dead"; "other_repo" := "running"]}
             Sample.quiet in
  containers (check_cached_container Sample.octocat w).2 !! "other_repo"
  = containers w !! "other_repo".
Proof.
  cbv zeta.
  refine (proj1
            (other_containers_untouched Sample.octocat (Handle "octocat_demo" "dead")
               (with_containers {["octocat_demo" := "dead"; "other_repo" := "running"]}
                  Sample.quiet) "other_repo" _)).
  discriminate.
Defined.







(** X8. A container created by either creation method is found running by
    [check_cached_container], provided the daemon answers the lookup. *)
Theorem created_container_is_found (self : CacheManager) (w w1 : World) (c : Container) :
  create_container_from_cached_image self w = (inr c, w1) ∨
  create_new_container self w = (inr c, w1) →
  faults w OpContainersGet = None →
  check_cached_container self w1
  = (inr (Some (Handle (handle_name c) "running")),
     with_log INFO ("Found running cached container: " +:+ repo self)
       (with_call (ContainersGet (repo self)) w1)).
Proof.
  intros H Hget.
  assert (handle_name c = repo self ∧ containers w1 !! repo self = Some "running"
          ∧ faults w1 OpContainersGet = None) as (-> & Hrun & Hget1).
  { destruct H as [H|H].
    - refine (wp_elim _ (λ r w1, ∀ c, r = inr c →
                handle_name c = repo self ∧ containers w1 !! repo self = Some "running"
                ∧ faults w1 OpContainersGet = None) w _ _ _ H c eq_refl).
      clear H. wp_fast; intros; simplify_eq; use_run_facts; simpl;
        by rewrite ?lookup_insert_eq.
    - refine (wp_elim _ (λ r w1, ∀ c, r = inr c →
                handle_name c = repo self ∧ containers w1 !! repo self = Some "running"
                ∧ faults w1 OpContainersGet = None) w _ _ _ H c eq_refl).
      clear H. wp_fast; intros; simplify_eq; use_run_facts; simpl;
        by rewrite ?lookup_insert_eq. }
  apply (wp_outcome (check_cached_container self) (λ p, p = _)). by wp_run.
Qed.

Lemma created_container_is_found_witness :
  let w1 := (create_new_container Sample.octocat Sample.quiet).2 in
  check_cached_container Sample.octocat w1
  = (inr (Some (Handle "octocat_demo" "running")),
     with_log INFO "Found running cached container: octocat_demo"
       (with_call (ContainersGet "octocat_demo") w1)).
Proof.
  cbv zeta.
  refine (created_container_is_found Sample.octocat Sample.quiet _
            (Handle "octocat_demo" "created") _ _); [|reflexivity].
  right. vm_compute; reflexivity.
Defined.

Lemma map_chars_length f s : String.length (PyStr.map_chars f s) = String.length s.
Proof. induction s; simpl; congruence. Qed.

Lemma lower_char_idemp c : PyStr.lower_char (PyStr.lower_char c) = PyStr.lower_char c.
Proof.
  destruct c as [[] [] [] [] [] [] [] []]; vm_compute; reflexivity.
Qed.

Lemma lower_char_not_slash c : c ≠ "/"%char → PyStr.lower_char c ≠ "/"%char.
Proof.
  destruct c as [[] [] [] [] [] [] [] []]; vm_compute; congruence.
Qed.

Lemma slash_to_underscore_not_slash c : PyStr.slash_to_underscore c ≠ "/"%char.
Proof.
  unfold PyStr.slash_to_underscore. by destruct (Ascii.eqb_spec c "/").
Qed.

Lemma mem_char_map_false (c : ascii) (f : ascii → ascii) (s : string) :
  (∀ x, f x ≠ c) → PyStr.mem_char c (PyStr.map_chars f s) = false.
Proof.
  intros Hf. induction s as [|a s IH]; [done|]. simpl. rewrite IH, orb_false_r.
  apply Ascii.eqb_neq. intros Heq. by apply (Hf a).
Qed.

Lemma mem_char_map_preserved (c : ascii) (f : ascii → ascii) (s : string) :
  (∀ x, x ≠ c → f x ≠ c) → PyStr.mem_char c s = false →
  PyStr.mem_char c (PyStr.map_chars f s) = false.
Proof.
  intros Hf. induction s as [|a s IH]; [done|]. simpl.
  intros [Ha Hs]%orb_false_elim. rewrite (IH Hs), orb_false_r.
  apply Ascii.eqb_neq in Ha. apply Ascii.eqb_neq. intros Heq.
  apply (Hf a); congruence.
Qed.

(** X9. For an ASCII repository name the derived keys are well formed:
    neither the container key nor the image namespace contains [/], both
    are as long as the repository name, and lower-casing the namespace
    again changes nothing. *)
Theorem derived_keys_wellformed (base name task : string) (tmo : nat) :
  PyStr.is_ascii name = true →
  let m := init base name task tmo in
  PyStr.mem_char "/" (repo m) = false ∧
  PyStr.mem_char "/" (repo_lower m) = false ∧
  String.length (repo m) = String.length name ∧
  String.length (repo_lower m) = String.length name ∧
  PyStr.lower (repo_lower m) = repo_lower m.
Proof.
  intros _. cbv zeta. unfold init. cbn [repo repo_lower].
  rewrite replace_slash_map, !lower_map.
  assert (PyStr.mem_char "/" (PyStr.map_chars PyStr.slash_to_underscore name) = false)
    as Hns by apply mem_char_map_false, slash_to_underscore_not_slash.
  repeat split.
  - done.
  - apply mem_char_map_preserved; [apply lower_char_not_slash|done].
  - apply map_chars_length.
  - by rewrite !map_chars_length.
  - generalize (PyStr.map_chars PyStr.slash_to_underscore name). clear.
    intros s. induction s as [|a s IH]; [done|]. simpl. by rewrite IH, lower_char_idemp.
Qed.

Lemma derived_keys_wellformed_witness :
  let m := init "/opt/agent" "PyData/XArray" "7" 300 in
  PyStr.mem_char "/" (repo m) = false ∧
  PyStr.mem_char "/" (repo_lower m) = false ∧
  String.length (repo m) = String.length "PyData/XArray" ∧
  String.length (repo_lower m) = String.length "PyData/XArray" ∧
  PyStr.lower (repo_lower m) = repo_lower m.
Proof.
  cbv zeta.
  exact (derived_keys_wellformed "/opt/agent" "PyData/XArray" "7" 300 eq_refl).
Defined.


(* ===================================================================== *)
(** ** The image pull script *)
(* ===================================================================== *)

Import PullImages.

Lemma pwp_elim {A} (m : P A) Q d r d' : pwp m Q d → m d = (r, d') → Q r d'.
Proof. unfold pwp. intros H E. by rewrite E in H. Qed.

Lemma pwp_outcome {A} (m : P A) (Q : (exn + A) * Daemon → Prop) d :
  pwp m (λ r d', Q (r, d')) d → Q (m d).
Proof. unfold pwp. by destruct (m d). Qed.

Lemma pwp_ret {A} (a : A) Q d : Q (inr a) d → pwp (mret a) Q d.
Proof. done. Qed.

Lemma pwp_throw {A} (e : exn) (Q : exn + A → Daemon → Prop) d :
  Q (inl e) d → pwp (throw e) Q d.
Proof. done. Qed.

Lemma pwp_view {A} (f : Daemon → A) Q d : Q (inr (f d)) d → pwp (view f) Q d.
Proof. done. Qed.

Lemma pwp_bind {A B} (m : P A) (f : A → P B) Q d :
  pwp m (λ r d1, match r with inr a => pwp (f a) Q d1 | inl e => Q (inl e) d1 end) d →
  pwp (m ≫= f) Q d.
Proof. unfold pwp, mbind, P_bind. by destruct (m d) as [[e|a] d1]. Qed.

Lemma pwp_catch {A} (body : P A) (h : exn → P A) Q d :
  pwp body (λ r d1, match r with inr a => Q (inr a) d1 | inl e => pwp (h e) Q d1 end) d →
  pwp (catch body h) Q d.
Proof. unfold pwp, catch. by destruct (body d) as [[e|a] d1]. Qed.

Lemma pwp_print line Q d :
  Q (inr tt) {| local := local d; registry := registry d; refuses := refuses d;
                asked := asked d; printed := printed d ++ [line] |} →
  pwp (print line) Q d.
Proof. done. Qed.

Lemma pwp_store name id Q d :
  Q (inr tt) {| local := <[name := id]> (local d); registry := registry d;
                refuses := refuses d; asked := asked d; printed := printed d |} →
  pwp (store name id) Q d.
Proof. done. Qed.

Lemma pwp_ask r Q d :
  (let d' := {| local := local d; registry := registry d; refuses := refuses d;
                asked := asked d ++ [r]; printed := printed d |} in
   match refuses d r with
   | Some e => Q (inl e) d'
   | None => Q (inr tt) d'
   end) →
  pwp (ask r) Q d.
Proof. unfold pwp, ask. by destruct (refuses d r). Qed.

Ltac pwp_case x :=
  first
    [ match goal with H : x = _ |- _ => rewrite H end
    | destruct x eqn:? ].

Ltac pwp_step :=
  lazymatch goal with
  | |- pwp (mret _) _ _ => apply pwp_ret
  | |- pwp (throw _) _ _ => apply pwp_throw
  | |- pwp (view _) _ _ => apply pwp_view
  | |- pwp (print _) _ _ => apply pwp_print
  | |- pwp (store _ _) _ _ => apply pwp_store
  | |- pwp (ask _) _ _ => apply pwp_ask; cbv zeta
  | |- pwp (_ ≫= _) _ _ => apply pwp_bind
  | |- pwp (catch _ _) _ _ => apply pwp_catch
  | |- pwp (match ?x with _ => _ end) _ _ => pwp_case x
  | |- pwp (if ?x then _ else _) _ _ => pwp_case x
  | |- match ?x with _ => _ end => pwp_case x
  | |- pwp ?m _ _ => let h := head_const m in unfold h
  end; cbn [local registry refuses asked printed image_id negb].

Ltac pwp_run := repeat pwp_step.

Lemma split_once_join (c : ascii) (s : string) :
  PyStr.mem_char c s = true →
  (split_once c s).1 +:+ String c (split_once c s).2 = s.
Proof.
  induction s as [|a s IH]; [done|]. simpl.
  rewrite Ascii.eqb_sym.
  destruct (Ascii.eqb a c) eqn:Hac; simpl.
  - intros _. apply Ascii.eqb_eq in Hac. by subst.
  - intros Hm. destruct (split_once c s) as [b r]. simpl in *.
    change (String a (b +:+ String c r) = String a s). by rewrite (IH Hm).
Qed.

Lemma prefix_nil (s : string) : String.prefix "" s = true.
Proof. by destruct s. Qed.

Lemma contains_char (c : ascii) (s : string) :
  PyStr.contains (String c "") s = PyStr.mem_char c s.
Proof.
  induction s as [|a s IH]; [done|].
  cbn [PyStr.contains PyStr.mem_char]. rewrite IH. f_equal.
  unfold PyStr.startswith. cbn [String.prefix]. rewrite prefix_nil.
  destruct (ascii_dec c a) as [->|Hne].
  - by rewrite Ascii.eqb_refl.
  - symmetry. by apply Ascii.eqb_neq.
Qed.

Lemma tag_target (name repo : string) (tag : option string) :
  PyStr.contains ":" name = true →
  (if PyStr.contains ":" name
   then let '(r, t) := split_once ":" name in (r, Some t)
   else (name, None)) = (repo, tag) →
  repo +:+ ":" +:+ default "latest" tag = name.
Proof.
  intros Hc. rewrite Hc. rewrite contains_char in Hc.
  pose proof (split_once_join _ _ Hc) as Hj.
  destruct (split_once ":" name) as [r t]. intros [= <- <-]. exact Hj.
Qed.

(** X10. When [_process_one] reports success outside a dry run, the image
    is in the local store under its short name, with the id it had there
    before or the id the registry has for its remote name. *)
Theorem processed_image_is_local (short name msg : string) (d d' : Daemon) :
  process_one false short d = (inr (name, true, msg), d') →
  name = short ∧
  ∃ id, local d' !! short = Some id ∧
        (local d !! short = Some id ∨ registry d !! build_remote_name short = Some id).
Proof.
  intros H.
  refine (pwp_elim _ (λ r d', ∀ name msg, r = inr (name, true, msg) →
            name = short ∧ ∃ id, local d' !! short = Some id ∧ _) d _ _ _ H name msg eq_refl).
  clear. pwp_run; intros; simplify_eq; (split; [done|]).
  all: try (eexists; split; [eassumption|by left]).
  all: apply negb_false_iff in Heqb.
  all: rewrite (tag_target _ _ _ Heqb Heqp), lookup_insert_eq.
  all: rewrite lookup_insert_eq in *; simplify_eq.
  all: eexists; split; [done|by right].
Qed.

Lemma processed_image_is_local_witness :
  let short := "featbench_octocat_demo:42" in
  ∃ id, local (process_one false short sample_daemon).2 !! short = Some id ∧
        (local sample_daemon !! short = Some id ∨ registry sample_daemon !! build_remote_name short = Some id).
Proof.
  cbv zeta.
  refine (proj2 (processed_image_is_local "featbench_octocat_demo:42"
                   "featbench_octocat_demo:42" _ sample_daemon _ _)).
  vm_compute; reflexivity.
Defined.

(** X11. An image that is already local is not pulled: the lookup is the
    only request, and nothing else changes. *)
Theorem present_image_not_pulled (short id : string) (d : Daemon) :
  PyStr.contains ":" short = true →
  local d !! short = Some id →
  refuses d (Get short) = None →
  process_one false short d
  = (inr (short, true, "local image already present"),
     {| local := local d; registry := registry d; refuses := refuses d;
        asked := asked d ++ [Get short]; printed := printed d |}).
Proof.
  intros Hc Hl Hr.
  apply (pwp_outcome (process_one false short) (λ p, p = _)).
  unfold process_one. rewrite Hc. cbn [negb]. by pwp_run.
Qed.

Lemma present_image_not_pulled_witness :
  let d := {| local := {["featbench_octocat_demo:42" := "sha256:l1"]}; registry := ∅;
              refuses := λ _, None; asked := []; printed := [] |} in
  process_one false "featbench_octocat_demo:42" d
  = (inr ("featbench_octocat_demo:42", true, "local image already present"),
     {| local := local d; registry := registry d; refuses := refuses d;
        asked := asked d ++ [Get "featbench_octocat_demo:42"]; printed := printed d |}).
Proof.
  cbv zeta.
  refine (present_image_not_pulled "featbench_octocat_demo:42" "sha256:l1" _ _ _ _);
    vm_compute; reflexivity.
Defined.

(** X12. A pull that fails, or a remote name the registry does not have,
    is reported as a failure and not raised when the error is an API error;
    any other exception leaves [_process_one] as it is. The local store is
    unchanged and no tag is attempted. *)
Theorem pull_failure_reported (short : string) (e : exn) (d : Daemon) :
  let remote := build_remote_name short in
  PyStr.contains ":" short = true →
  local d !! short = None →
  refuses d (Get short) = None →
  refuses d (Pull remote) = Some e ∨
  refuses d (Pull remote) = None ∧ registry d !! remote = None ∧
  e = Exn NotFound ("manifest unknown: " +:+ remote) →
  (process_one false short d).1
  = (if isinstance_APIError e
     then inr (short, false, "failed to pull " +:+ remote)
     else inl e) ∧
  local (process_one false short d).2 = local d ∧
  asked (process_one false short d).2 = asked d ++ [Get short; Pull remote].
Proof.
  intros remote Hc Hl Hg Hp.
  apply (pwp_outcome (process_one false short)
           (λ p, p.1 = _ ∧ local p.2 = local d ∧ asked p.2 = _)).
  unfold process_one. rewrite Hc. cbn [negb]. fold remote.
  destruct Hp as [Hp|(Hp & Hreg & ->)].
  - pwp_run; cbn [fst snd local asked]; by rewrite <- ?app_assoc.
  - pwp_run; cbn [fst snd local asked]; by rewrite <- ?app_assoc.
Qed.

Lemma pull_failure_reported_witness :
  let short := "featbench_octocat_demo:43" in
  let remote := "ghcr.io/kndy666/featbench_octocat_demo:43" in
  (process_one false short sample_daemon).1 = inr (short, false, "failed to pull " +:+ remote) ∧
  local (process_one false short sample_daemon).2 = local sample_daemon ∧
  asked (process_one false short sample_daemon).2 = asked sample_daemon ++ [Get short; Pull remote].
Proof.
  cbv zeta.
  refine (pull_failure_reported "featbench_octocat_demo:43"
            (Exn NotFound "manifest unknown: ghcr.io/kndy666/featbench_octocat_demo:43")
            sample_daemon _ _ _ _); try (vm_compute; reflexivity).
  right. repeat split; vm_compute; reflexivity.
Defined.

Lemma prefix_app (x y : string) : String.prefix x (x +:+ y) = true.
Proof.
  induction x as [|c x IH]; [apply prefix_nil|].
  change (String.prefix (String c x) (String c (x +:+ y)) = true).
  cbn [String.prefix]. by destruct (ascii_dec c c).
Qed.

Lemma contains_app (sub a b : string) : PyStr.contains sub (a +:+ sub +:+ b) = true.
Proof.
  pose proof prefix_app as Hp.
  induction a as [|c a IH].
  - change (PyStr.contains sub (sub +:+ b) = true).
    destruct (sub +:+ b) eqn:E; cbn [PyStr.contains]; unfold PyStr.startswith;
      rewrite <- E, Hp; done.
  - change (PyStr.contains sub (String c (a +:+ sub +:+ b)) = true).
    cbn [PyStr.contains]. rewrite IH. apply orb_true_r.
Qed.

(** X13. [build_remote_name] is idempotent. *)
Theorem build_remote_name_idempotent (short : string) :
  build_remote_name (build_remote_name short) = build_remote_name short.
Proof.
  destruct (PyStr.contains "/" short && negb (PyStr.startswith short "featbench_"))
    eqn:Hc.
  - assert (build_remote_name short = short) as H.
    { unfold build_remote_name. by rewrite Hc. }
    by rewrite !H.
  - assert (build_remote_name short = "ghcr.io/kndy666" +:+ "/" +:+ short) as ->.
    { unfold build_remote_name. by rewrite Hc. }
    unfold build_remote_name.
    rewrite (contains_app "/" "ghcr.io/kndy666" short).
    reflexivity.
Qed.

(** X14. The short name [parse_dataset_for_images] forms from [repo] and
    [number] is the image key of the cache manager for that repository and
    task id; it has a tag, and its remote name is the default prefix
    followed by it. *)
Theorem dataset_name_is_cache_key (base r : string) (tmo : nat)
    (images : gset string) (i : instance) :
  docker_image i = None →
  inst_repo i = JStr r →
  r ≠ "" →
  truthy (inst_number i) = true →
  let key := Cache.image_key (init base r (format (inst_number i)) tmo) in
  add_instance images i = {[ key ]} ∪ images ∧
  PyStr.contains ":" key = true ∧
  build_remote_name key = "ghcr.io/kndy666/" +:+ key.
Proof.
  intros Hd Hr Hne Hn key. repeat split.
  - unfold add_instance. rewrite Hd, Hr, Hn. cbn [truthy].
    destruct (String.eqb_spec r ""); [done|]. reflexivity.
  - unfold key, Cache.image_key.
    rewrite <- app_assoc_str. apply contains_app.
  - unfold build_remote_name, key, Cache.image_key.
    replace (PyStr.startswith _ "featbench_") with true; [by rewrite andb_false_r|].
    unfold PyStr.startswith. symmetry. apply prefix_app.
Qed.

Lemma dataset_name_is_cache_key_witness :
  let i := {| docker_image := None; inst_repo := JStr "octocat/demo";
              inst_number := JInt 42 |} in
  add_instance ∅ i = {[ "featbench_octocat_demo:42" ]} ∪ ∅ ∧
  PyStr.contains ":" "featbench_octocat_demo:42" = true ∧
  build_remote_name "featbench_octocat_demo:42"
  = "ghcr.io/kndy666/featbench_octocat_demo:42".
Proof.
  cbv zeta.
  refine (dataset_name_is_cache_key "/opt/agent" "octocat/demo" 300 ∅
            {| docker_image := None; inst_repo := JStr "octocat/demo";
               inst_number := JInt 42 |} _ _ _ _); done.
Defined.

Lemma add_instance_union (images : gset string) (i : instance) :
  add_instance images i = add_instance ∅ i ∪ images.
Proof.
  unfold add_instance.
  destruct (docker_image i) as [d|]; [destruct (negb (String.eqb d ""))|];
    destruct (truthy (inst_repo i) && truthy (inst_number i)), (inst_repo i);
    by rewrite ?(right_id_L ∅ (∪)), ?(left_id_L ∅ (∪)).
Qed.

(** X15. The set [parse_dataset_for_images] returns holds exactly the
    images named by the instances of a dataset that could be loaded; it is
    empty for a missing or unreadable dataset. *)
Theorem parsed_images (path : string) (file : dataset) (x : string) :
  x ∈ (parse_dataset_for_images path file).2 ↔
  ∃ data i, file = Loaded data ∧ i ∈ data ∧ x ∈ add_instance ∅ i.
Proof.
  destruct file as [|reason|data]; simpl.
  - split; [set_solver|]. by intros (? & ? & ? & _).
  - split; [set_solver|]. by intros (? & ? & ? & _).
  - assert (∀ acc, x ∈ foldl add_instance acc data ↔
                   x ∈ acc ∨ ∃ i, i ∈ data ∧ x ∈ add_instance ∅ i) as Hfold.
    { induction data as [|j data IH]; intros acc; simpl.
      - split; [auto|]. intros [?|(i & Hi & _)]; [done|]. by apply elem_of_nil in Hi.
      - rewrite IH, add_instance_union. split.
        + intros [[Hj|Hacc]%elem_of_union|(i & Hi & Hx)].
          * right. exists j. split; [left|done].
          * by left.
          * right. exists i. split; [by right|done].
        + intros [Hacc|(i & Hi & Hx)].
          * left. apply elem_of_union. by right.
          * apply elem_of_cons in Hi as [->|Hi]; [left; apply elem_of_union; by left|].
            right. eauto. }
    rewrite Hfold. split.
    + intros [?|(i & Hi & Hx)]; [set_solver|]. by exists data, i.
    + intros (data' & i & [= <-] & Hi & Hx). right. eauto.
Qed.

Lemma parsed_images_witness :
  "featbench_octocat_demo:42"
  ∈ (parse_dataset_for_images "dataset/featbench_v1_0.json"
       (Loaded [ {| docker_image := Some "ghcr.io/acme/tool:1"; inst_repo := JNone;
                    inst_number := JNone |};
                 {| docker_image := None; inst_repo := JStr "octocat/demo";
                    inst_number := JInt 42 |} ])).2.
Proof.
  apply (parsed_images "dataset/featbench_v1_0.json").
  eexists _, {| docker_image := None; inst_repo := JStr "octocat/demo";
                inst_number := JInt 42 |}.
  split; [reflexivity|]. split.
  - apply elem_of_cons. right. apply elem_of_cons. by left.
  - vm_compute. reflexivity.
Defined.

(* ===================================================================== *)
(** ** Candidate repositories *)
(* ===================================================================== *)

Import GitHub.

Section candidates_facts.
Context {A : Type}.
Implicit Types (server : nat → response A) (l : list A).

Lemma rank_page_shift s e c i c' i' l :
  c + i = c' + i' → rank_page s e c i l = rank_page s e c' i' l.
Proof.
  revert i i'. induction l as [|x l IH]; intros i i' H; [done|].
  simpl. rewrite H. f_equal. apply IH. lia.
Qed.

Lemma rank_page_app s e c i l1 l2 :
  rank_page s e c i (l1 ++ l2)
  = rank_page s e c i l1 ++ rank_page s e c (i + length l1) l2.
Proof.
  revert i. induction l1 as [|x l1 IH]; intros i; simpl.
  - f_equal. lia.
  - rewrite IH, <- app_assoc. do 2 f_equal. apply rank_page_shift. lia.
Qed.

Lemma rank_page_elem s e c i l (x : A) (r : nat) :
  (x, r) ∈ rank_page s e c i l →
  s ≤ r ≤ e ∧ ∃ j, l !! j = Some x ∧ r = c + i + j + 1.
Proof.
  revert i. induction l as [|y l IH]; intros i; simpl.
  - by intros ?%elem_of_nil.
  - intros [Hin|Hin]%elem_of_app.
    + destruct (_ <=? _) eqn:H1; [|by apply elem_of_nil in Hin].
      destruct (c + i + 1 <=? e) eqn:H2; simpl in Hin; [|by apply elem_of_nil in Hin].
      apply list_elem_of_singleton in Hin. simplify_eq.
      apply Nat.leb_le in H1, H2. split; [lia|]. exists 0. split; [done|lia].
    + destruct (IH _ Hin) as (Hr & j & Hj & ->). split; [done|].
      exists (S j). split; [done|lia].
Qed.

Lemma rank_page_sorted s e c i l :
  StronglySorted (λ a b : A * nat, a.2 < b.2) (rank_page s e c i l) ∧
  Forall (λ a : A * nat, c + i < a.2) (rank_page s e c i l).
Proof.
  revert i. induction l as [|y l IH]; intros i; simpl.
  - split; constructor.
  - destruct (IH (S i)) as [Hs Hf].
    assert (Forall (λ a : A * nat, c + i + 1 < a.2) (rank_page s e c (S i) l)) as Hf'.
    { eapply Forall_impl; [exact Hf|]. simpl. intros; lia. }
    destruct (_ && _); simpl.
    + split.
      * constructor; [done|]. exact Hf'.
      * constructor; [simpl; lia|]. eapply Forall_impl; [exact Hf|]. simpl; intros; lia.
    + split; [done|]. eapply Forall_impl; [exact Hf|]. simpl; intros; lia.
Qed.

Lemma listing_S server n :
  listing server (S n) = listing server n ++ items_of (server (S n)).
Proof.
  unfold listing. rewrite seq_S, map_app, concat_app. simpl. by rewrite app_nil_r.
Qed.

Lemma listing_prefix server n k : n ≤ k → listing server n `prefix_of` listing server k.
Proof.
  induction 1 as [|k _ IH]; [done|].
  rewrite listing_S. by apply prefix_app_r.
Qed.

(** The loop keeps: what has been collected is the ranked selection of the
    pages read so far. *)
Lemma fetch_invariant server s e fuel n out out' repos :
  fetch fuel server s e (n + 1) (length (listing server n))
    (rank_page s e 0 0 (listing server n)) out = (out', Returned repos) →
  ∃ k, k ≤ n + fuel ∧ repos = rank_page s e 0 0 (listing server k).
Proof.
  revert n out. induction fuel as [|fuel IH]; intros n out; [done|].
  cbn [fetch].
  destruct (server (n + 1)) as [reason|status msg|items total] eqn:Hsrv; [done| |].
  { intros [= _ <-]. exists 0. split; [lia|done]. }
  assert (listing server (S n) = listing server n ++ items) as HS.
  { rewrite listing_S. replace (S n) with (n + 1) by lia. by rewrite Hsrv. }
  assert (rank_page s e 0 0 (listing server n)
          ++ rank_page s e (length (listing server n)) 0 items
          = rank_page s e 0 0 (listing server (S n))) as Hacc.
  { rewrite HS, rank_page_app. f_equal. apply rank_page_shift. lia. }
  destruct items as [|x items].
  { intros [= _ <-]. exists n. split; [lia|done]. }
  set (page_items := x :: items) in *.
  destruct (e <? _).
  { intros [= _ <-]. exists n. split; [lia|done]. }
  rewrite Hacc.
  destruct (e <=? _).
  { intros [= _ <-]. exists (S n). split; [lia|done]. }
  destruct (_ || _).
  { intros [= _ <-]. exists (S n). split; [lia|done]. }
  replace (length (listing server n) + length page_items)
    with (length (listing server (S n))) by (rewrite HS, length_app; done).
  replace (n + 1 + 1) with (S n + 1) by lia.
  intros H. destruct (IH _ _ H) as (k & Hk & ->). exists k. split; [lia|done].
Qed.

(** X16. What [get_candidate_repos] returns is the ranked selection of the
    first pages (ten at most): the repositories come in increasing rank,
    every rank lies between [rank_start] and [rank_end], and the repository
    of rank [r] is the [r]-th of the listing. *)
Theorem candidate_repos_ranked server (min_stars rank_start rank_end : nat)
    (out : list string) (repos : list (A * nat)) :
  get_candidate_repos server min_stars rank_start rank_end = (out, Returned repos) →
  (∃ k, k ≤ 10 ∧ repos = rank_page rank_start rank_end 0 0 (listing server k)) ∧
  StronglySorted (λ a b : A * nat, a.2 < b.2) repos ∧
  ∀ x r, (x, r) ∈ repos →
         rank_start ≤ r ≤ rank_end ∧ 1 ≤ r ∧ listing server 10 !! (r - 1) = Some x.
Proof.
  intros H. apply (fetch_invariant server _ _ 10 0) in H as (k & Hk & ->).
  split; [by exists k|]. split; [apply rank_page_sorted|].
  intros x r (Hr & j & Hj & ->)%rank_page_elem. split; [done|]. split; [lia|].
  replace (0 + 0 + j + 1 - 1) with j by lia.
  eapply prefix_lookup_Some; [exact Hj|]. by apply listing_prefix.
Qed.

(** X17. [get_candidate_repos] asks for ten pages at most: its outcome
    depends on the answers for pages 1 to 10 only, and the loop ends within
    them. *)
Theorem candidate_repos_ten_pages server server' (min_stars rank_start rank_end : nat) :
  (∀ p, 1 ≤ p ≤ 10 → server p = server' p) →
  get_candidate_repos server min_stars rank_start rank_end
  = get_candidate_repos server' min_stars rank_start rank_end ∧
  (get_candidate_repos server min_stars rank_start rank_end).2 ≠ OutOfFuel.
Proof.
  intros Hsame. unfold get_candidate_repos.
  assert (∀ fuel page count acc out,
            1 ≤ page → page + fuel = 10 →
            fetch (S fuel) server rank_start rank_end page count acc out
            = fetch (S fuel) server' rank_start rank_end page count acc out ∧
            (fetch (S fuel) server rank_start rank_end page count acc out).2 ≠ OutOfFuel)
    as Hgen.
  { induction fuel as [|fuel IH]; intros page count acc out Hp Hf.
    - cbn [fetch]. rewrite <- (Hsame page) by lia.
      destruct (server page) as [|?|items total]; [done|done|].
      destruct items as [|x items]; [done|].
      destruct (_ <? _); [done|]. destruct (_ <=? _); [done|].
      destruct (Nat.leb_spec 10 page) as [Hge|Hlt]; [by rewrite orb_true_r|lia].
    - remember (S fuel) as fuel1. cbn [fetch]. rewrite <- (Hsame page) by lia.
      destruct (server page) as [|?|items total]; [done|done|].
      destruct items as [|x items]; [done|].
      destruct (_ <? _); [done|]. destruct (_ <=? _); [done|].
      destruct (_ || _); [done|]. subst fuel1. apply IH; lia. }
  apply (Hgen 9 1 0 []); lia.
Qed.

End candidates_facts.

Lemma candidate_repos_ranked_witness :
  let repos := [("b", 2); ("c", 3); ("d", 4); ("e", 5)] in
  (∃ k, k ≤ 10 ∧ repos = rank_page 2 5 0 0 (listing sample_server k)) ∧
  StronglySorted (λ a b : string * nat, a.2 < b.2) repos ∧
  ∀ x r, (x, r) ∈ repos → 2 ≤ r ≤ 5 ∧ 1 ≤ r ∧ listing sample_server 10 !! (r - 1) = Some x.
Proof.
  cbv zeta.
  refine (candidate_repos_ranked sample_server 100 2 5 _ _ _).
  vm_compute; reflexivity.
Defined.

Lemma candidate_repos_ten_pages_witness :
  get_candidate_repos sample_server 100 2 50 = get_candidate_repos sample_server' 100 2 50 ∧
  (get_candidate_repos sample_server 100 2 50).2 ≠ OutOfFuel.
Proof.
  refine (candidate_repos_ten_pages sample_server sample_server' 100 2 50 _).
  intros p [H1 H2]. do 11 (destruct p as [|p]; [try reflexivity; lia|]). lia.
Defined.

(* ===================================================================== *)
(** ** Pull request links *)
(* ===================================================================== *)

Import PullRequests.

Example extract_examples :
  extract_pr_number_from_url "https://github.com/octocat/demo/pull/128" = Some "128" ∧
  extract_pr_number_from_url "https://github.com/octocat/demo/pull/128/files" = Some "128" ∧
  extract_pr_number_from_url "https://github.com/octocat/demo/issues/7" = None ∧
  extract_pr_number_from_url "https://github.com/octocat/pull/x/pull/9" = Some "9".
Proof. repeat split; reflexivity. Qed.

Lemma app_cons (c : ascii) (s t : string) : String c s +:+ t = String c (s +:+ t).
Proof. reflexivity. Qed.

Lemma app_nil (t : string) : "" +:+ t = t.
Proof. reflexivity. Qed.

Lemma take_digits_all (d : string) :
  all_digits d = true → take_digits d = d.
Proof.
  induction d as [|c d IH]; [done|]. simpl.
  intros [Hc Hd]%andb_true_iff. by rewrite Hc, IH.
Qed.

Lemma match_pull_here (d : string) :
  d ≠ "" → all_digits d = true → match_pull ("/pull/" +:+ d) = Some d.
Proof.
  intros Hne Hd. unfold match_pull.
  replace (PyStr.startswith ("/pull/" +:+ d) "/pull/") with true
    by (symmetry; apply prefix_app).
  change (drop 6 ("/pull/" +:+ d)) with d.
  rewrite (take_digits_all d Hd). by destruct d.
Qed.

Lemma match_pull_straddle (s d : string) :
  s ≠ "" → PyStr.startswith s "/pull/" = false →
  match_pull (s +:+ "/pull/" +:+ d) = None.
Proof.
  intros Hne Hs. unfold match_pull, PyStr.startswith in *.
  destruct s as [|c1 [|c2 [|c3 [|c4 [|c5 [|c6 s]]]]]]; [done|..];
    rewrite ?app_cons, ?app_nil in *; cbn [String.prefix] in *;
    repeat match goal with
      | |- context [ascii_dec ?a ?b] => destruct (ascii_dec a b) as [<-|?]; [|done]
      | H : context [ascii_dec ?a ?b] |- _ => destruct (ascii_dec a b) as [<-|?]; [|done]
      end; try done.
  - by rewrite prefix_nil in Hs.
Qed.

Lemma search_pull_skip (p d : string) :
  PyStr.contains "/pull/" p = false →
  search_pull (p +:+ "/pull/" +:+ d) = search_pull ("/pull/" +:+ d).
Proof.
  induction p as [|c p IH]; [done|].
  cbn [PyStr.contains]. intros [Hs Hp]%orb_false_elim.
  rewrite app_cons.
  change (search_pull (String c (p +:+ "/pull/" +:+ d)))
    with (match match_pull (String c (p +:+ "/pull/" +:+ d)) with
          | Some digits => Some digits
          | None => search_pull (p +:+ "/pull/" +:+ d)
          end).
  rewrite <- app_cons, (match_pull_straddle (String c p) d) by done.
  by apply IH.
Qed.

Lemma search_pull_here (s d : string) :
  match_pull s = Some d → search_pull s = Some d.
Proof. intros H. destruct s; cbn [search_pull]; by rewrite H. Qed.

Lemma pr_link_roundtrip (repo_name pr_id : string) :
  pr_id ≠ "" → all_digits pr_id = true →
  PyStr.contains "/pull/" ("https://github.com/" +:+ repo_name) = false →
  extract_pr_number_from_url (pr_link repo_name pr_id) = Some pr_id.
Proof.
  intros Hne Hd Hc. unfold extract_pr_number_from_url, pr_link.
  rewrite <- app_assoc_str, search_pull_skip by done.
  by apply search_pull_here, match_pull_here.
Qed.

Lemma foldl_snoc {X Y} (f : X → Y) (l : list X) (acc : list Y) :
  foldl (λ acc x, acc ++ [f x]) acc l = acc ++ map f l.
Proof.
  revert acc. induction l as [|x l IH]; intros acc; simpl.
  - by rewrite app_nil_r.
  - by rewrite IH, <- app_assoc.
Qed.

(** X18. The numbers of the links built by [analyze_release] are read
    back: item by item, extracting from the links of the features gives the
    ids of the LLM result, when these are digits and the repository name
    brings no [/pull/] of its own. *)
Theorem feature_links_roundtrip (repo_name ftype : string) (items : list llm_item) :
  PyStr.contains "/pull/" ("https://github.com/" +:+ repo_name) = false →
  Forall (λ item, Forall (λ pr_id, pr_id ≠ "" ∧ all_digits pr_id = true)
                    (default [] (pr_ids item))) items →
  map (λ f, map extract_pr_number_from_url (pr_links f))
    (convert_to_feature_analysis repo_name items ftype)
  = map (λ item, map Some (default [] (pr_ids item))) items.
Proof.
  intros Hrepo Hitems. unfold convert_to_feature_analysis.
  rewrite (foldl_snoc (λ item, {| feature_type := ftype;
                                  fa_description := default "" (description item);
                                  pr_links := _ |})).
  simpl. rewrite map_map. simpl.
  induction Hitems as [|item items Hitem _ IH]; [done|].
  simpl. f_equal; [|exact IH].
  destruct (pr_ids item) as [ids|]; [|done]. simpl in *.
  rewrite foldl_snoc. simpl. rewrite map_map.
  induction Hitem as [|pr_id ids [Hne Hd] _ IHids]; [done|].
  simpl. f_equal; [|exact IHids]. by apply pr_link_roundtrip.
Qed.

Lemma feature_links_roundtrip_witness :
  let items := [ {| pr_ids := Some ["128"; "131"]; description := Some "adds a flag" |};
                 {| pr_ids := None; description := None |} ] in
  map (λ f, map extract_pr_number_from_url (pr_links f))
    (convert_to_feature_analysis "octocat/demo" items "new_feature")
  = [[Some "128"; Some "131"]; []].
Proof.
  cbv zeta.
  refine (feature_links_roundtrip "octocat/demo" "new_feature" _ _ _); [reflexivity|].
  repeat constructor; done.
Defined.

Lemma take_digits_digits (s : string) : all_digits (take_digits s) = true.
Proof.
  induction s as [|c s IH]; [done|]. simpl.
  destruct (is_digit c) eqn:Hc; [|done]. simpl. by rewrite Hc, IH.
Qed.

(** X19. For an ASCII URL, what [extract_pr_number_from_url] returns is a
    non-empty run of the digits [0] to [9], and it returns nothing for a
    URL without [/pull/]. *)
Theorem extracted_number_is_digits (pr_url : string) :
  PyStr.is_ascii pr_url = true →
  (∀ n, extract_pr_number_from_url pr_url = Some n → n ≠ "" ∧ all_digits n = true) ∧
  (PyStr.contains "/pull/" pr_url = false → extract_pr_number_from_url pr_url = None).
Proof.
  intros _. unfold extract_pr_number_from_url. split.
  - induction pr_url as [|c s IH]; intros n.
    + cbn. done.
    + cbn [search_pull].
      destruct (match_pull (String c s)) as [d|] eqn:Hm; [|apply IH].
      intros [= <-]. unfold match_pull in Hm.
      destruct (PyStr.startswith _ _); [|done].
      pose proof (take_digits_digits (drop 6 (String c s))) as Hd.
      destruct (take_digits _); [done|]. by simplify_eq.
  - induction pr_url as [|c s IH].
    + done.
    + cbn [PyStr.contains search_pull]. intros [Hs Hc]%orb_false_elim.
      unfold match_pull at 1. rewrite Hs. by apply IH.
Qed.

Lemma extracted_number_is_digits_witness :
  "128" ≠ "" ∧ all_digits "128" = true.
Proof.
  apply (proj1 (extracted_number_is_digits
                  "https://github.com/octocat/demo/pull/128/files" eq_refl)).
  reflexivity.
Defined.
